(** * mlflow/projects/docker.py: image tag, build context, tracking translator

    A shallow embedding of [mlflow/projects/docker.py] and of the library
    calls it makes, followed by the properties of the module's
    specification.

    Conventions of the embedding.
    - A Python [str] is a [string]; its characters are read as the bytes of
      the UTF-8 encoding, which is exact on ASCII text.
    - A filesystem path is the list of its components ([fspath]);
      [os.path.join d name] is [d ++ [name]].
    - A [dict] from [str] to [str] is a [gmap string string];
      [d.update(e)] is the union in which [e] wins.
    - A call that can raise returns a [result]; a call that reads or changes
      the filesystem is a state transformer on [world] (monad [M]).
    - Code of the repository that lives outside this module
      ([get_databricks_env_vars], [path_to_local_file_uri], ...) is taken as
      a variable of the section that embeds the module. *)

From Stdlib Require Import Ascii.
From stdpp Require Import gmap strings list fin_maps.

Set Default Proof Using "Type".

(** ** Exceptions and results *)

Inductive exn :=
| ValueError (msg : string)
| FileNotFoundError
| FileExistsError
| IsADirectoryError
| NotADirectoryError
| PermissionError
| OSError (msg : string)
| BuildError (msg : string).

Inductive result (A : Type) :=
| Ok (a : A)
| Raise (e : exn).
Arguments Ok {A} a.
Arguments Raise {A} e.

(** ** Python string primitives *)

Module Py.

(** [bool(s)] for a [str]: the empty string is falsy. *)
Definition truthy (s : string) : bool :=
  match s with
  | EmptyString => false
  | String _ _ => true
  end.

(** [s.find(c)] for a one-character [c]. *)
Fixpoint find (c : ascii) (s : string) : option nat :=
  match s with
  | EmptyString => None
  | String a s' => if Ascii.eqb a c then Some 0 else S <$> find c s'
  end.

(** [s.rfind(c)]. *)
Fixpoint rfind (c : ascii) (s : string) : option nat :=
  match s with
  | EmptyString => None
  | String a s' =>
      match rfind c s' with
      | Some i => Some (S i)
      | None => if Ascii.eqb a c then Some 0 else None
      end
  end.

(** [c in s]. *)
Definition contains (c : ascii) (s : string) : bool :=
  match find c s with Some _ => true | None => false end.

(** [s[:n]]. *)
Fixpoint slice_to (n : nat) (s : string) : string :=
  match n, s with
  | S n', String a s' => String a (slice_to n' s')
  | _, _ => EmptyString
  end.

(** [s[n:]]. *)
Fixpoint slice_from (n : nat) (s : string) : string :=
  match n, s with
  | S n', String _ s' => slice_from n' s'
  | _, _ => s
  end.

(** [s[i:j]]. *)
Definition slice (i j : nat) (s : string) : string :=
  slice_to (j - i) (slice_from i s).

(** [s.find(c, start)]. *)
Definition find_at (c : ascii) (start : nat) (s : string) : option nat :=
  if decide (start ≤ String.length s)
  then (λ i, start + i) <$> find c (slice_from start s)
  else None.

(** [s.split(c, 1)] when [c in s]: the text before and after the first [c]. *)
Definition split1 (c : ascii) (s : string) : option (string * string) :=
  (λ i, (slice_to i s, slice_from (S i) s)) <$> find c s.

(** [all(ch in allowed for ch in s)]. *)
Fixpoint all_in (allowed : string) (s : string) : bool :=
  match s with
  | EmptyString => true
  | String a s' => contains a allowed && all_in allowed s'
  end.

(** [ch.lower()] on ASCII. *)
Definition lower_char (a : ascii) : ascii :=
  let n := nat_of_ascii a in
  if (65 <=? n) && (n <=? 90) then ascii_of_nat (n + 32) else a.

(** [s.lower()] on ASCII. *)
Fixpoint lower (s : string) : string :=
  match s with
  | EmptyString => EmptyString
  | String a s' => String (lower_char a) (lower s')
  end.

(** [sep.join(parts)]. *)
Fixpoint join (sep : string) (parts : list string) : string :=
  match parts with
  | [] => ""
  | [p] => p
  | p :: ps => p +:+ sep +:+ join sep ps
  end.

End Py.

(** ** [urllib.parse] and [urllib.request] (CPython 3.8.0 to 3.8.10, POSIX)

    Later releases (3.8.11, 3.9.5 and after) first take every tab, line
    feed and carriage return out of the URL, and the latest also strip
    the control characters and spaces it starts with; [urlsplit] below
    does neither. On a URL without these characters, and that starts with
    none of the stripped ones, the releases agree. *)

Module urllib.

Record ParseResult := mkParseResult {
  scheme : string;
  netloc : string;
  path : string;
  params : string;
  query : string;
  fragment : string
}.

Definition scheme_chars : string :=
  "abcdefghijklmnopqrstuvwxyzABCDEFGHIJKLMNOPQRSTUVWXYZ0123456789+-.".

Definition uses_params : list string :=
  [""; "ftp"; "hdl"; "prospero"; "http"; "imap"; "https"; "shttp"; "rtsp";
   "rtspu"; "sip"; "sips"; "mms"; "sftp"; "tel"].

(** The scheme step of [urlsplit]: [i = url.find(':')], and for [i > 0]
    either the [http] shortcut or the scan of [url[:i]] against
    [scheme_chars] followed by the port-number test on the rest. *)
Definition split_scheme (url : string) : string * string :=
  match Py.find ":" url with
  | Some (S i') =>
      let i := S i' in
      let head := Py.slice_to i url in
      let rest := Py.slice_from (S i) url in
      if String.eqb head "http" then ("http", rest)
      else if Py.all_in scheme_chars head then
        if negb (Py.truthy rest) || negb (Py.all_in "0123456789" rest)
        then (Py.lower head, rest)
        else ("", url)
      else ("", url)
  | _ => ("", url)
  end.

(** [_splitnetloc(url, start)]. *)
Definition _splitnetloc (url : string) (start : nat) : string * string :=
  let delim :=
    foldl (λ delim c,
             match Py.find_at c start url with
             | Some wdelim => Nat.min delim wdelim
             | None => delim
             end)
          (String.length url) ["/"; "?"; "#"]%char in
  (Py.slice start delim url, Py.slice_from delim url).

(** [urlsplit(url)] without its result cache. [_checknetloc], which
    raises [ValueError] for a non-ASCII network location that normalises
    (NFKC) to one holding [/], [?], [#], [@] or [:], is left out: on an
    ASCII network location, and on a URL without one, it does nothing. *)
Definition urlsplit (url : string) : result (string * string * string * string * string) :=
  let '(scheme, url) := split_scheme url in
  let '(netloc, url) :=
    if String.eqb (Py.slice_to 2 url) "//" then _splitnetloc url 2 else ("", url) in
  if (Py.contains "[" netloc && negb (Py.contains "]" netloc))
     || (Py.contains "]" netloc && negb (Py.contains "[" netloc))
  then Raise (ValueError "Invalid IPv6 URL")
  else
    let '(url, fragment) :=
      match Py.split1 "#" url with Some p => p | None => (url, "") end in
    let '(url, query) :=
      match Py.split1 "?" url with Some p => p | None => (url, "") end in
    Ok (scheme, netloc, url, query, fragment).

(** [_splitparams(url)], called when [';' in url]. *)
Definition _splitparams (url : string) : string * string :=
  let cut i := (Py.slice_to i url, Py.slice_from (S i) url) in
  match Py.rfind "/" url with
  | Some r =>
      match Py.find_at ";" r url with
      | Some i => cut i
      | None => (url, "")
      end
  | None =>
      match Py.find ";" url with
      | Some i => cut i
      | None => (url, "")
      end
  end.

(** [urlparse(url)]. *)
Definition urlparse (url : string) : result ParseResult :=
  match urlsplit url with
  | Raise e => Raise e
  | Ok (scheme, netloc, url, query, fragment) =>
      let '(url, params) :=
        if bool_decide (scheme ∈ uses_params) && Py.contains ";" url
        then _splitparams url else (url, "") in
      Ok (mkParseResult scheme netloc url params query fragment)
  end.

Definition hex_value (a : ascii) : option nat :=
  let n := nat_of_ascii a in
  if (48 <=? n) && (n <=? 57) then Some (n - 48)
  else if (65 <=? n) && (n <=? 70) then Some (n - 55)
  else if (97 <=? n) && (n <=? 102) then Some (n - 87)
  else None.

(** [unquote_to_bytes]: every [%XX] with two hexadecimal digits becomes
    the byte [XX]; any other [%] stays. *)
Fixpoint unquote_to_bytes (s : string) : string :=
  match s with
  | EmptyString => EmptyString
  | String a s' =>
      if Ascii.eqb a "%" then
        match s' with
        | String h (String l s'') =>
            match hex_value h, hex_value l with
            | Some x, Some y =>
                String (ascii_of_nat (16 * x + y)) (unquote_to_bytes s'')
            | _, _ => String a (unquote_to_bytes s')
            end
        | _ => String a (unquote_to_bytes s')
        end
      else String a (unquote_to_bytes s')
  end.

(** [unquote(string)]: a string without [%] is returned as it is;
    otherwise the escapes are decoded. The closing
    [decode('utf-8', 'replace')] is the identity on well-formed UTF-8;
    where the escapes decode to bytes that are not UTF-8, CPython puts
    U+FFFD in their place and this definition keeps the bytes. *)
Definition unquote (s : string) : string :=
  if Py.contains "%" s then unquote_to_bytes s else s.

(** [urllib.request.url2pathname] on POSIX. *)
Definition url2pathname (pathname : string) : string := unquote pathname.

End urllib.

(** ** [posixpath] *)

Module posixpath.

(** [posixpath.join(a, b)]. *)
Definition join (a b : string) : string :=
  if String.prefix "/" b then b
  else if negb (Py.truthy a) || String.eqb (Py.slice_from (String.length a - 1) a) "/"
       then a +:+ b
       else a +:+ "/" +:+ b.

End posixpath.

(** ** The filesystem

    A tree of directories and regular files carrying their modification
    times. The tree stores no permission bits: the file operations of
    [Posix] take every directory as writable, apart from
    [Posix.rmtree_read_only], which is told the read-only directories by
    name. Links and open descriptors are outside the model.
    A regular file holds raw text or a gzip-compressed tar stream, kept as
    the name of its root entry and the tree stored under it. *)

Definition fspath := list string.

#[warnings="-register-all"]
Inductive node :=
| File (mtime : nat) (data : content)
| Dir (mtime : nat) (entries : gmap string node)
with content :=
| Bytes (text : string)
| TarGz (root : string) (tree : node).

Module FS.

Fixpoint lookup (p : fspath) (n : node) : option node :=
  match p with
  | [] => Some n
  | x :: p' =>
      match n with
      | Dir _ es => es !! x ≫= lookup p'
      | File _ _ => None
      end
  end.

(** [os.path.isdir]. *)
Definition isdir (p : fspath) (n : node) : bool :=
  match lookup p n with
  | Some (Dir _ _) => true
  | _ => false
  end.

(** [os.path.exists]. *)
Definition exists_ (p : fspath) (n : node) : bool :=
  match lookup p n with
  | Some _ => true
  | None => false
  end.

(** Bind [p] to [new] at time [now]. With [parents] the missing
    directories on the way are created, as [os.makedirs] does; without
    it the parent has to be there. [None] when a component on the way
    is a regular file or, without [parents], is missing. A directory
    that gains an entry gets the modification time [now]. *)
Fixpoint put (parents : bool) (now : nat) (p : fspath) (new : node) (n : node)
  : option node :=
  match p with
  | [] => Some new
  | x :: p' =>
      match n with
      | File _ _ => None
      | Dir t es =>
          match p' with
          | [] =>
              Some (Dir (match es !! x with Some _ => t | None => now end)
                        (<[x:=new]> es))
          | _ :: _ =>
              match es !! x with
              | Some child =>
                  child' ← put parents now p' new child;
                  Some (Dir t (<[x:=child']> es))
              | None =>
                  if parents then
                    child' ← put parents now p' new (Dir now ∅);
                    Some (Dir now (<[x:=child']> es))
                  else None
              end
          end
      end
  end.

(** Unbind [p] with everything below it. [None] when [p] is the root or
    is not there. *)
Fixpoint remove (now : nat) (p : fspath) (n : node) : option node :=
  match p with
  | [] => None
  | x :: p' =>
      match n with
      | File _ _ => None
      | Dir t es =>
          match p' with
          | [] =>
              match es !! x with
              | Some _ => Some (Dir now (delete x es))
              | None => None
              end
          | _ :: _ =>
              child ← es !! x;
              child' ← remove now p' child;
              Some (Dir t (<[x:=child']> es))
          end
      end
  end.

(** A component before the last of [p] is a regular file: the lookup of
    [p] then fails with [ENOTDIR] instead of [ENOENT]. *)
Fixpoint through_file (p : fspath) (n : node) : bool :=
  match p with
  | [] => false
  | x :: p' =>
      match n with
      | File _ _ => true
      | Dir _ es =>
          match es !! x with
          | Some child => through_file p' child
          | None => false
          end
      end
  end.

(** The tree with every modification time set to zero. *)
Fixpoint strip_mtime (n : node) : node :=
  match n with
  | File _ d => File 0 (strip_mtime_content d)
  | Dir _ es => Dir 0 (strip_mtime <$> es)
  end
with strip_mtime_content (c : content) : content :=
  match c with
  | Bytes s => Bytes s
  | TarGz r t => TarGz r (strip_mtime t)
  end.

End FS.

(** What a system call raises for a path that is not there:
    [NotADirectoryError] when the path runs through a regular file,
    [FileNotFoundError] otherwise. *)
Definition missing_error (p : fspath) (n : node) : exn :=
  if FS.through_file p n then NotADirectoryError else FileNotFoundError.

(** ** The world and the monad of effectful calls *)

Record image := mkImage {
  image_id : string;
  image_tags : list string
}.

Record world := mkWorld {
  fs : node;                            (* the root directory *)
  tempdir : fspath;                     (* tempfile.gettempdir() *)
  candidate_names : list string;        (* what tempfile's name generator yields next *)
  clock : nat;
  tags : list (string * string * string); (* set_tag calls received by the tracking client *)
  log : list string                     (* _logger.info records *)
}.

Definition M (A : Type) : Type := world → result A * world.

Definition ret {A} (a : A) : M A := λ w, (Ok a, w).

Definition raise {A} (e : exn) : M A := λ w, (Raise e, w).

Definition bind {A B} (m : M A) (k : A → M B) : M B :=
  λ w, match m w with
       | (Ok a, w') => k a w'
       | (Raise e, w') => (Raise e, w')
       end.

Notation "x ←← m ;; k" := (bind m (λ x, k))
  (at level 100, m at next level, right associativity, only parsing).
Notation "m ;;; k" := (bind m (λ _, k))
  (at level 100, right associativity, only parsing).

(** [try: body finally: cleanup]. An exception of [cleanup] replaces the
    outcome of [body]. *)
Definition try_finally {A} (body : M A) (cleanup : M unit) : M A :=
  λ w, match body w with
       | (r, w1) =>
           match cleanup w1 with
           | (Ok _, w2) => (r, w2)
           | (Raise e, w2) => (Raise e, w2)
           end
       end.

(** [try: body except Exception: handler]. *)
Definition try_except (body : M unit) (handler : exn → M unit) : M unit :=
  λ w, match body w with
       | (Ok _, w1) => (Ok (), w1)
       | (Raise e, w1) => handler e w1
       end.

Definition set_fs (root : node) (w : world) : world :=
  mkWorld root (tempdir w) (candidate_names w) (S (clock w)) (tags w) (log w).

Definition set_candidate_names (names : list string) (w : world) : world :=
  mkWorld (fs w) (tempdir w) names (clock w) (tags w) (log w).

(** [_logger.info(msg)]. *)
Definition log_info (msg : string) : M unit :=
  λ w, (Ok (), mkWorld (fs w) (tempdir w) (candidate_names w) (clock w)
                       (tags w) (log w ++ [msg])).

(** Modelled from the spec: the metadata-tagging client, whose code is not
    part of this module. [set_tag(run_id, key, value)] hands one tag to the
    tracking client, which records it. *)
Definition set_tag (run_id key value : string) : M unit :=
  λ w, (Ok (), mkWorld (fs w) (tempdir w) (candidate_names w) (clock w)
                       (tags w ++ [(run_id, key, value)]) (log w)).

(** The loop of [tempfile.mkdtemp] and [tempfile.mkstemp]: draw names until
    one is free in the temporary directory and create [fresh] there;
    [FileExistsError] once the names are used up. *)
Fixpoint mktemp_loop (fresh : nat → node) (names : list string) (w : world)
  : result fspath * world :=
  match names with
  | [] => (Raise FileExistsError, set_candidate_names [] w)
  | name :: rest =>
      let file := tempdir w ++ ["tmp" +:+ name] in
      match FS.lookup file (fs w) with
      | Some _ => mktemp_loop fresh rest w
      | None =>
          match FS.put false (clock w) file (fresh (clock w)) (fs w) with
          | Some root => (Ok file, set_fs root (set_candidate_names rest w))
          | None => (Raise (missing_error file (fs w)), set_candidate_names rest w)
          end
      end
  end.

(** [tempfile.mkdtemp()]. *)
Definition mkdtemp : M fspath :=
  λ w, mktemp_loop (λ now, Dir now ∅) (candidate_names w) w.

(** The calls whose failures and partial effects the properties below
    range over: the file operations between the creation of the staging
    directory and its removal, that removal, the removal of the archive,
    and the container engine. *)
Class Host := {
  (* shutil.copytree(src, dst) *)
  copytree : fspath → fspath → M unit;
  (* with open(path, "w") as handle: handle.write(text) *)
  write_text : fspath → string → M unit;
  (* tempfile.mkstemp(), the path half of its result *)
  mkstemp : M fspath;
  (* file_utils.make_tarfile(output_filename, source_dir, archive_name) *)
  make_tarfile : fspath → fspath → string → M unit;
  (* shutil.rmtree(path) *)
  rmtree : fspath → M unit;
  (* os.remove(path) *)
  os_remove : fspath → M unit;
  (* open(path, "rb"), the bytes behind the handle *)
  open_rb : fspath → M content;
  (* docker.from_env().images.build(tag, dockerfile, fileobj, forcerm=True,
     custom_context=True, encoding="gzip"), the image half of its result *)
  images_build : string → string → content → M image
}.

(** ** A host without faults, and one with read-only directories

    What the calls of [Host] do on the filesystem above when nothing goes
    wrong outside it, and a removal that meets directories it may not
    write to. *)

Module Posix.

(** [shutil.copytree(src, dst)]: [src] has to be a directory and [dst]
    must not exist; the parents of [dst] are created, and the copy keeps
    the times of the original, as [copystat] does. A missing [src] raises
    what [os.scandir] raises for it. Copying a directory into itself ends
    in an error in CPython, after a descent that this model does not
    follow. *)
Definition copytree (src dst : fspath) : M unit :=
  λ w, match FS.lookup src (fs w) with
       | None => (Raise (missing_error src (fs w)), w)
       | Some (File _ _) => (Raise NotADirectoryError, w)
       | Some (Dir t es) =>
           match FS.lookup dst (fs w) with
           | Some _ => (Raise FileExistsError, w)
           | None =>
               if bool_decide (src `prefix_of` dst)
               then (Raise (OSError "cannot copy a directory into itself"), w)
               else
                 match FS.put true (clock w) dst (Dir t es) (fs w) with
                 | Some root => (Ok (), set_fs root w)
                 | None => (Raise NotADirectoryError, w)
                 end
           end
       end.

(** Create or truncate the regular file [path] and fill it. *)
Definition write_file (path : fspath) (data : content) : M unit :=
  λ w, match FS.lookup path (fs w) with
       | Some (Dir _ _) => (Raise IsADirectoryError, w)
       | _ =>
           match FS.put false (clock w) path (File (clock w) data) (fs w) with
           | Some root => (Ok (), set_fs root w)
           | None => (Raise (missing_error path (fs w)), w)
           end
       end.

Definition write_text (path : fspath) (text : string) : M unit :=
  write_file path (Bytes text).

Definition mkstemp : M fspath :=
  λ w, mktemp_loop (λ now, File now (Bytes "")) (candidate_names w) w.

(** Modelled from the spec: [file_utils.make_tarfile], whose code is not
    part of this module. It archives the tree at [source_dir] into the
    file [output_filename] as a gzip-compatible tar stream whose root
    entry is named [archive_name]. *)
Definition make_tarfile (output_filename source_dir : fspath) (archive_name : string)
  : M unit :=
  λ w, match FS.lookup source_dir (fs w) with
       | None => (Raise (missing_error source_dir (fs w)), w)
       | Some tree => write_file output_filename (TarGz archive_name tree) w
       end.

(** [shutil.rmtree(path)] on a filesystem where every directory is
    writable: it raises for a missing path and for a regular file, and
    removes a directory with everything below it. *)
Definition rmtree (path : fspath) : M unit :=
  λ w, match FS.lookup path (fs w) with
       | None => (Raise (missing_error path (fs w)), w)
       | Some (File _ _) => (Raise NotADirectoryError, w)
       | Some (Dir _ _) =>
           match FS.remove (clock w) path (fs w) with
           | Some root => (Ok (), set_fs root w)
           | None => (Raise (OSError "cannot remove the root directory"), w)
           end
       end.

(** The tree [n] has, at some depth, a directory entry called [name] that
    is not empty. *)
Fixpoint holds_entries_under (name : string) (n : node) : bool :=
  match n with
  | File _ _ => false
  | Dir _ es =>
      match es !! name with
      | Some (Dir _ es') => negb (bool_decide (size es' = 0))
      | _ => false
      end
      || map_fold (λ _ below found, below || found) false
                  (holds_entries_under name <$> es)
  end.

(** [shutil.rmtree(path)] where the directories called [name] have their
    write bit cleared (mode 0555) and the caller is not the superuser. An
    entry of such a directory cannot be unlinked: [os.unlink] and
    [os.rmdir] raise [PermissionError], and [rmtree], called without
    [ignore_errors] or [onerror], passes the first error on. The entries
    it has visited before that are gone; the order is that of
    [os.scandir], and this definition takes the order that meets the
    read-only directory first, where nothing has been removed yet. In
    every order the directory [path] itself stays. *)
Definition rmtree_read_only (name : string) (path : fspath) : M unit :=
  λ w, match FS.lookup path (fs w) with
       | Some (Dir t es) =>
           if holds_entries_under name (Dir t es)
           then (Raise PermissionError, w)
           else rmtree path w
       | _ => rmtree path w
       end.

Definition os_remove (path : fspath) : M unit :=
  λ w, match FS.lookup path (fs w) with
       | None => (Raise (missing_error path (fs w)), w)
       | Some (Dir _ _) => (Raise IsADirectoryError, w)
       | Some (File _ _) =>
           match FS.remove (clock w) path (fs w) with
           | Some root => (Ok (), set_fs root w)
           | None => (Raise (OSError "cannot remove the root directory"), w)
           end
       end.

Definition open_rb (path : fspath) : M content :=
  λ w, match FS.lookup path (fs w) with
       | None => (Raise (missing_error path (fs w)), w)
       | Some (Dir _ _) => (Raise IsADirectoryError, w)
       | Some (File _ data) => (Ok data, w)
       end.

(** A stand-in for the container engine: it accepts a gzip tar stream,
    names the image after the tag and builds nothing. *)
Definition images_build (tag dockerfile : string) (fileobj : content) : M image :=
  match fileobj with
  | TarGz _ _ => ret (mkImage ("sha256:" +:+ tag) [tag])
  | Bytes _ => raise (BuildError "the build context is not a gzip tar stream")
  end.

Definition host : Host :=
  Build_Host copytree write_text mkstemp make_tarfile rmtree os_remove open_rb
             images_build.

(** The same host with an archive that cannot be deleted. *)
Definition host_keeping_archive : Host :=
  Build_Host copytree write_text mkstemp make_tarfile rmtree
             (λ _, raise (OSError "Operation not permitted")) open_rb
             images_build.

(** The fault-free file operations around a container engine of one's
    own. *)
Definition host_with_engine (engine : string → string → content → M image) : Host :=
  Build_Host copytree write_text mkstemp make_tarfile rmtree os_remove open_rb
             engine.

(** The same file operations where the directories called [name] are
    read-only, in a working directory and, since [copytree] copies the
    mode with the times, in its copy. Reading them is not affected. *)
Definition host_read_only (name : string) : Host :=
  Build_Host copytree write_text mkstemp make_tarfile (rmtree_read_only name)
             os_remove open_rb images_build.

End Posix.

(** ** Sample collaborators and a sample world

    Instances of the code that lives outside this module, for running the
    module on concrete inputs. *)

Module Sample.

Definition tracking_uri_env_var : string := "MLFLOW_TRACKING_URI".

Definition no_credentials : string → gmap string string := λ _, ∅.

Definition profile_credentials : string → gmap string string :=
  λ _, {[ "MLFLOW_TRACKING_URI" := "databricks";
          "DATABRICKS_HOST" := "https://example.cloud.databricks.com";
          "DATABRICKS_TOKEN" := "secret" ]}.

Definition path_to_local_sqlite_uri (p : string) : string := "sqlite:///" +:+ p.

Definition path_to_local_file_uri (p : string) : string := "file://" +:+ p.

Definition git_commit : fspath → option string :=
  λ _, Some "3f2a9c41d07be5486a1c9d2e7b60f1a3c5d8e9b2".

Definition no_git_commit : fspath → option string := λ _, None.

(** Two checkouts whose commits share their first seven characters. *)
Definition near_commits : fspath → option string :=
  λ work_dir, if decide (work_dir = ["home"; "user"; "project"])
              then Some "3f2a9c41d07be5486a1c9d2e7b60f1a3c5d8e9b2"
              else Some "3f2a9c4ffb2a90c1e55d7a3b8c6f4e2d1a0b9c8d".

Definition workdir_path : string := "/mlflow/projects/code/".
Definition image_uri_tag : string := "mlflow.docker.image.uri".
Definition image_id_tag : string := "mlflow.docker.image.id".

(** A project with two files in [/home/user/project] and an empty [/tmp]. *)
Definition project : node :=
  Dir 3 {[ "MLproject" := File 1 (Bytes "name: demo");
           "train.py" := File 2 (Bytes "print(1)") ]}.

Definition root : node :=
  Dir 0 {[ "tmp" := Dir 0 ∅;
           "home" := Dir 0 {[ "user" := Dir 0 {[ "project" := project ]} ]} ]}.

Definition world0 : world :=
  mkWorld root ["tmp"] ["a1"; "b2"; "c3"; "d4"] 10 [] [].

Definition work_dir : fspath := ["home"; "user"; "project"].

(** The same world with a single temporary name left. *)
Definition world_one_name : world :=
  mkWorld root ["tmp"] ["a1"] 10 [] [].

(** A project that holds a directory under the name of the manifest. *)
Definition world_manifest_dir : world :=
  mkWorld (Dir 0 {[ "tmp" := Dir 0 ∅;
                    "project" := Dir 1 {[ "Dockerfile.mlflow-autogenerated" := Dir 1 ∅ ]} ]})
          ["tmp"] ["a1"; "b2"] 10 [] [].

(** A project whose directory [data] holds one file. *)
Definition project_with_data : node :=
  Dir 3 {[ "MLproject" := File 1 (Bytes "name: demo");
           "data" := Dir 2 {[ "train.csv" := File 2 (Bytes "x,y") ]} ]}.

Definition world_with_data : world :=
  mkWorld (Dir 0 {[ "tmp" := Dir 0 ∅;
                    "home" := Dir 0 {[ "user" :=
                                Dir 0 {[ "project" := project_with_data ]} ]} ]})
          ["tmp"] ["a1"; "b2"; "c3"; "d4"] 10 [] [].

End Sample.

(** ** [mlflow/projects/docker.py] *)

Definition _GENERATED_DOCKERFILE_NAME : string := "Dockerfile.mlflow-autogenerated".
Definition _MLFLOW_DOCKER_TRACKING_DIR_PATH : string := "/mlflow/tmp/mlruns".
Definition _PROJECT_TAR_ARCHIVE_NAME : string := "mlflow-project-docker-build-context".

(** The name the staging subdirectory gets in [_create_docker_build_ctx]. *)
Definition staging_subdirectory : string := "mlflow-project-contents".

Definition newline : string := String (ascii_of_nat 10) EmptyString.

(** [d.update(e)]. *)
Definition dict_update (d e : gmap string string) : gmap string string := e ∪ d.

(** The absolute path string of an [fspath], for messages. *)
Definition path_string (p : fspath) : string := "/" +:+ Py.join "/" p.

(** What a function of the module raises: its own [ExecutionException], or
    an exception of a call it makes, passed on. *)
Inductive raised :=
| ExecutionException (message : string)
| Propagated (e : exn).

Inductive outcome (A : Type) :=
| Returns (a : A)
| Raises (r : raised).
Arguments Returns {A} a.
Arguments Raises {A} r.

(** [isinstance(e, EnvironmentError)]; in Python 3 [EnvironmentError] is
    [OSError]. *)
Definition is_environment_error (e : exn) : bool :=
  match e with
  | FileNotFoundError | FileExistsError | IsADirectoryError
  | NotADirectoryError | PermissionError | OSError _ => true
  | ValueError _ | BuildError _ => false
  end.

(** What [validate_docker_env] reads of a project: its [name], [None] or a
    string, and its [docker_env] dictionary. *)
Record Project := mkProject {
  project_name : option string;
  project_docker_env : gmap string string
}.

(** [bool(x)] for [x] that is [None] or a string. *)
Definition truthy_opt (x : option string) : bool :=
  match x with
  | Some s => Py.truthy s
  | None => false
  end.


(** A gzip tar stream unpacked into an empty directory. *)
Definition extract (c : content) : option node :=
  match c with
  | TarGz root tree => Some (Dir 0 {[ root := tree ]})
  | Bytes _ => None
  end.

Section docker.
Import urllib.

(** [mlflow.tracking._TRACKING_URI_ENV_VAR] *)
Variable _TRACKING_URI_ENV_VAR : string.
(** [mlflow.projects.utils.get_databricks_env_vars] *)
Variable get_databricks_env_vars : string → gmap string string.
(** [mlflow.utils.file_utils.path_to_local_sqlite_uri] and
    [path_to_local_file_uri] *)
Variable path_to_local_sqlite_uri : string → string.
Variable path_to_local_file_uri : string → string.
(** [mlflow.tracking.context.git_context._get_git_commit]: the commit
    identifier of the working directory, [None] without one. *)
Variable _get_git_commit : fspath → option string.
(** [mlflow.projects.utils.MLFLOW_DOCKER_WORKDIR_PATH] *)
Variable MLFLOW_DOCKER_WORKDIR_PATH : string.
(** [mlflow.utils.mlflow_tags.MLFLOW_DOCKER_IMAGE_URI] and
    [MLFLOW_DOCKER_IMAGE_ID] *)
Variable MLFLOW_DOCKER_IMAGE_URI : string.
Variable MLFLOW_DOCKER_IMAGE_ID : string.

Definition _get_docker_image_uri (repository_uri : string) (work_dir : fspath)
  : string :=
  let repository_uri :=
    if Py.truthy repository_uri then repository_uri else "docker-project" in
  let git_commit := _get_git_commit work_dir in
  let version_string :=
    match git_commit with
    | Some commit =>
        if Py.truthy commit then ":" +:+ Py.slice_to 7 commit else ""
    | None => ""
    end in
  repository_uri +:+ version_string.

Definition _create_docker_build_ctx {host : Host}
    (work_dir : fspath) (dockerfile_contents : string) : M fspath :=
  directory ←← mkdtemp ;;
  try_finally
    (let dst_path := directory ++ [staging_subdirectory] in
     copytree work_dir dst_path ;;;
     write_text (dst_path ++ [_GENERATED_DOCKERFILE_NAME]) dockerfile_contents ;;;
     result_path ←← mkstemp ;;
     make_tarfile result_path dst_path _PROJECT_TAR_ARCHIVE_NAME ;;;
     ret result_path)
    (rmtree directory).

Definition dockerfile_text (base_image : string) : string :=
  "FROM " +:+ base_image +:+ newline
  +:+ "COPY " +:+ _PROJECT_TAR_ARCHIVE_NAME +:+ "/ " +:+ MLFLOW_DOCKER_WORKDIR_PATH +:+ newline
  +:+ "WORKDIR " +:+ MLFLOW_DOCKER_WORKDIR_PATH +:+ newline.

(** The block [with open(build_ctx_path, "rb") as docker_build_ctx] of
    [build_docker_image]. *)
Definition build_from_context {host : Host}
    (image_uri : string) (build_ctx_path : fspath) : M image :=
  docker_build_ctx ←← open_rb build_ctx_path ;;
  log_info ("=== Building docker image " +:+ image_uri +:+ " ===") ;;;
  images_build image_uri
    (posixpath.join _PROJECT_TAR_ARCHIVE_NAME _GENERATED_DOCKERFILE_NAME)
    docker_build_ctx.

Definition build_docker_image {host : Host}
    (work_dir : fspath) (repository_uri base_image run_id : string) : M image :=
  let image_uri := _get_docker_image_uri repository_uri work_dir in
  let dockerfile := dockerfile_text base_image in
  build_ctx_path ←← _create_docker_build_ctx work_dir dockerfile ;;
  image ←← build_from_context image_uri build_ctx_path ;;
  try_except (os_remove build_ctx_path)
    (λ _, log_info ("Temporary docker context file "
                    +:+ path_string build_ctx_path +:+ " was not deleted.")) ;;;
  set_tag run_id MLFLOW_DOCKER_IMAGE_URI image_uri ;;;
  set_tag run_id MLFLOW_DOCKER_IMAGE_ID (image_id image) ;;;
  ret image.

(** The two results of the Python function are both [None] or both
    strings; [None] here stands for [(None, None)]. *)
Definition _get_local_uri_or_none (uri : string)
  : result (option (string * string)) :=
  if String.eqb uri "databricks" then Ok None
  else
    match urlparse uri with
    | Raise e => Raise e
    | Ok parsed_uri =>
        if negb (Py.truthy (netloc parsed_uri))
           && bool_decide (scheme parsed_uri ∈ [""; "file"; "sqlite"])
        then
          let path := url2pathname (path parsed_uri) in
          let uri :=
            if String.eqb (scheme parsed_uri) "sqlite"
            then path_to_local_sqlite_uri _MLFLOW_DOCKER_TRACKING_DIR_PATH
            else path_to_local_file_uri _MLFLOW_DOCKER_TRACKING_DIR_PATH in
          Ok (Some (path, uri))
        else Ok None
    end.

Definition get_docker_tracking_cmd_and_envs (tracking_uri : string)
  : result (list string * gmap string string) :=
  match _get_local_uri_or_none tracking_uri with
  | Raise e => Raise e
  | Ok local =>
      let '(cmds, env_vars) :=
        match local with
        | Some (local_path, container_tracking_uri) =>
            (["-v"; local_path +:+ ":" +:+ _MLFLOW_DOCKER_TRACKING_DIR_PATH],
             <[_TRACKING_URI_ENV_VAR := container_tracking_uri]> (∅ : gmap string string))
        | None => ([], ∅)
        end in
      Ok (cmds, dict_update env_vars (get_databricks_env_vars tracking_uri))
  end.

(** [mlflow.utils.process.exec_cmd(cmd, throw_on_error)]: the exit code
    and the two output streams of the command. *)
Variable exec_cmd : list string → bool → M (nat * string * string).

Definition validate_docker_installation : world → outcome unit * world :=
  λ w,
    let docker_path := "docker" in
    match exec_cmd [docker_path; "--help"] false w with
    | (Ok _, w') => (Returns (), w')
    | (Raise e, w') =>
        if is_environment_error e
        then (Raises (ExecutionException
                        ("Could not find Docker executable. "
                         +:+ "Ensure Docker is installed as per the instructions "
                         +:+ "at https://docs.docker.com/install/overview/.")), w')
        else (Raises (Propagated e), w')
    end.

Definition validate_docker_env (project : Project) : outcome unit :=
  if negb (truthy_opt (project_name project)) then
    Raises (ExecutionException
              ("Project name in MLProject must be specified when using docker "
               +:+ "for image tagging."))
  else if negb (truthy_opt (project_docker_env project !! "image")) then
    Raises (ExecutionException
              ("Project with docker environment must specify the docker image "
               +:+ "to use via an 'image' field under the 'docker_env' field."))
  else Returns ().

(** A string that is a path and nothing else: it parses, and the parse
    finds neither a scheme nor a network location. *)
Definition is_bare_path (uri : string) : bool :=
  match urlparse uri with
  | Ok p => String.eqb (scheme p) "" && String.eqb (netloc p) ""
  | Raise _ => false
  end.

(** Two paths diverge when neither leads to the other. *)
Definition diverge (p q : fspath) : Prop :=
  ¬ p `prefix_of` q ∧ ¬ q `prefix_of` p.

(** [w'] differs from [w] inside the temporary directory [tmp] at most:
    the temporary directory is the same and every path that diverges from
    it leads to the same node. *)
Definition keeps_outside (tmp : fspath) (w w' : world) : Prop :=
  tempdir w = tmp →
  tempdir w' = tmp ∧ ∀ q, diverge q tmp → FS.lookup q (fs w') = FS.lookup q (fs w).

(** *** The translator *)

Lemma truthy_false_iff s : Py.truthy s = false ↔ s = "".
Proof. destruct s; simpl; split; congruence. Qed.

Lemma string_eqb_decide (s t : string) : String.eqb s t = bool_decide (s = t).
Proof.
  destruct (String.eqb_spec s t) as [->|Hne].
  - by rewrite bool_decide_eq_true_2.
  - by rewrite bool_decide_eq_false_2.
Qed.

Lemma dict_update_empty e : dict_update ∅ e = e.
Proof. unfold dict_update. apply (right_id_L ∅ (∪)). Qed.

Lemma dict_update_lookup_new d e k v :
  e !! k = Some v → dict_update d e !! k = Some v.
Proof. intros He. unfold dict_update. by apply lookup_union_Some_l. Qed.

Lemma dict_update_lookup_old d e k :
  e !! k = None → dict_update d e !! k = d !! k.
Proof. intros He. unfold dict_update. by rewrite lookup_union_r. Qed.

Lemma get_local_uri_local uri p :
  uri ≠ "databricks" →
  urlparse uri = Ok p →
  netloc p = "" →
  scheme p ∈ [""; "file"; "sqlite"] →
  _get_local_uri_or_none uri =
    Ok (Some (url2pathname (path p),
              if bool_decide (scheme p = "sqlite")
              then path_to_local_sqlite_uri "/mlflow/tmp/mlruns"
              else path_to_local_file_uri "/mlflow/tmp/mlruns")).
Proof.
  intros Hne Hp Hnet Hsch. unfold _get_local_uri_or_none.
  rewrite string_eqb_decide, bool_decide_eq_false_2 by done.
  rewrite Hp, Hnet. simpl.
  rewrite bool_decide_eq_true_2 by done.
  by rewrite string_eqb_decide.
Qed.

Lemma get_local_uri_databricks : _get_local_uri_or_none "databricks" = Ok None.
Proof. reflexivity. Qed.

Lemma get_local_uri_remote uri p :
  urlparse uri = Ok p →
  netloc p ≠ "" ∨ scheme p ∉ [""; "file"; "sqlite"] →
  _get_local_uri_or_none uri = Ok None.
Proof.
  intros Hp Hremote. unfold _get_local_uri_or_none.
  destruct (String.eqb uri "databricks"); [done|].
  rewrite Hp. destruct Hremote as [Hnet|Hsch].
  - destruct (Py.truthy (netloc p)) eqn:Ht; [done|].
    by apply truthy_false_iff in Ht.
  - rewrite (bool_decide_eq_false_2 _ Hsch). by rewrite andb_false_r.
Qed.

Lemma get_local_uri_raise uri e :
  _get_local_uri_or_none uri = Raise e → urlparse uri = Raise e.
Proof.
  unfold _get_local_uri_or_none.
  destruct (String.eqb uri "databricks"); [done|].
  destruct (urlparse uri) as [p|e']; [|congruence].
  by destruct (_ && _).
Qed.

(** C1. A tracking URI other than [databricks] that parses with no
    network location and with the scheme empty, [file] or [sqlite] yields
    exactly one mount pair, from the decoded path of the URI to
    [/mlflow/tmp/mlruns], and the translator sets the tracking-URI
    variable to the SQLite URI of [/mlflow/tmp/mlruns] for the scheme
    [sqlite] and to its file URI otherwise: the returned mapping is that
    single binding, overlaid with the credential variables, and it binds
    the variable to the rewritten URI unless the credential provider
    binds the variable itself. *)
Theorem local_uri_mount_and_rewrite uri p :
  uri ≠ "databricks" →
  urlparse uri = Ok p →
  netloc p = "" →
  scheme p ∈ [""; "file"; "sqlite"] →
  let rewritten :=
    if bool_decide (scheme p = "sqlite")
    then path_to_local_sqlite_uri "/mlflow/tmp/mlruns"
    else path_to_local_file_uri "/mlflow/tmp/mlruns" in
  ∃ env,
    get_docker_tracking_cmd_and_envs uri =
      Ok (["-v"; url2pathname (path p) +:+ ":" +:+ "/mlflow/tmp/mlruns"], env)
    ∧ env = dict_update {[ _TRACKING_URI_ENV_VAR := rewritten ]}
                        (get_databricks_env_vars uri)
    ∧ (get_databricks_env_vars uri !! _TRACKING_URI_ENV_VAR = None →
       env !! _TRACKING_URI_ENV_VAR = Some rewritten).
Proof.
  intros Hne Hp Hnet Hsch rewritten.
  eexists. split; [|split; [reflexivity|]].
  - unfold get_docker_tracking_cmd_and_envs.
    rewrite (get_local_uri_local uri p) by done.
    reflexivity.
  - intros Hnone. rewrite dict_update_lookup_old by done.
    apply lookup_singleton_eq.
Qed.

(** C4. For the literal [databricks], and for a URI whose parse has a
    network location or a scheme other than empty, [file] and [sqlite],
    the translator returns no mount argument and a mapping that is exactly
    the credential provider's: it adds no tracking-URI variable of its
    own. *)
Theorem remote_uri_no_mount uri :
  (uri = "databricks"
   ∨ ∃ p, urlparse uri = Ok p
          ∧ (netloc p ≠ "" ∨ scheme p ∉ [""; "file"; "sqlite"])) →
  get_docker_tracking_cmd_and_envs uri = Ok ([], get_databricks_env_vars uri).
Proof.
  intros Hremote. unfold get_docker_tracking_cmd_and_envs.
  assert (_get_local_uri_or_none uri = Ok None) as ->.
  { destruct Hremote as [->|(p & Hp & Hr)].
    - apply get_local_uri_databricks.
    - by apply (get_local_uri_remote uri p). }
  by rewrite dict_update_empty.
Qed.

(** C6. Whatever the tracking URI, the mapping the translator returns
    contains every name/value pair of the credential provider for that
    URI. The translator returns for every URI that [urlparse] accepts;
    the one way it does not return is the parser's own exception. *)
Theorem credentials_always_included uri :
  match get_docker_tracking_cmd_and_envs uri with
  | Ok (_, env) =>
      ∀ name value,
        get_databricks_env_vars uri !! name = Some value →
        env !! name = Some value
  | Raise e => urlparse uri = Raise e
  end.
Proof.
  unfold get_docker_tracking_cmd_and_envs.
  destruct (_get_local_uri_or_none uri) as [local|e] eqn:Hlocal.
  - destruct local as [[local_path container_tracking_uri]|];
      intros name value Hprovided; by apply dict_update_lookup_new.
  - by apply get_local_uri_raise.
Qed.

(** C10. On the local branch the credential mapping is merged after the
    rewritten URI is stored: when the provider binds the tracking-URI
    variable, the result carries the provider's value, whatever the
    rewritten URI was. *)
Theorem credentials_override_rewritten_uri uri local_path rewritten v :
  _get_local_uri_or_none uri = Ok (Some (local_path, rewritten)) →
  get_databricks_env_vars uri !! _TRACKING_URI_ENV_VAR = Some v →
  ∃ env,
    get_docker_tracking_cmd_and_envs uri =
      Ok (["-v"; local_path +:+ ":" +:+ "/mlflow/tmp/mlruns"], env)
    ∧ env !! _TRACKING_URI_ENV_VAR = Some v.
Proof.
  intros Hlocal Hv. unfold get_docker_tracking_cmd_and_envs.
  rewrite Hlocal. eexists. split; [reflexivity|].
  by apply dict_update_lookup_new.
Qed.

(** C9, amended. Every bare path, a string that parses with neither
    scheme nor network location, other than the literal [databricks]
    takes the local branch: the host half of the mount argument is the
    decoded path of the URI and the translator sets the tracking-URI
    variable to the file URI of [/mlflow/tmp/mlruns]. The empty URI is
    such a string: its host half is empty and its mount argument starts
    with the colon. *)
Theorem bare_path_is_local uri :
  is_bare_path uri = true →
  uri ≠ "databricks" →
  ∃ p host_path,
    urlparse uri = Ok p
    ∧ host_path = url2pathname (path p)
    ∧ get_docker_tracking_cmd_and_envs uri =
        Ok (["-v"; host_path +:+ ":" +:+ "/mlflow/tmp/mlruns"],
            dict_update {[ _TRACKING_URI_ENV_VAR :=
                             path_to_local_file_uri "/mlflow/tmp/mlruns" ]}
                        (get_databricks_env_vars uri))
    ∧ (uri = "" → host_path = ""
                  ∧ host_path +:+ ":" +:+ "/mlflow/tmp/mlruns" = ":/mlflow/tmp/mlruns").
Proof.
  intros Hbare Hne. unfold is_bare_path in Hbare.
  destruct (urlparse uri) as [p|] eqn:Hp; [|done].
  apply andb_true_iff in Hbare as [Hs Hn].
  apply String.eqb_eq in Hs, Hn.
  exists p, (url2pathname (path p)). split_and!; [done|done| |].
  - unfold get_docker_tracking_cmd_and_envs.
    rewrite (get_local_uri_local uri p); [|done|done|done|].
    + by rewrite Hs.
    + rewrite Hs. set_solver.
  - intros ->. vm_compute in Hp. by simplify_eq.
Qed.

(** A string without a colon that does not start with two slashes is a
    bare path. *)
Lemma no_colon_is_bare_path uri :
  Py.find ":" uri = None →
  Py.slice_to 2 uri ≠ "//" →
  is_bare_path uri = true.
Proof.
  intros Hcolon Hslash. unfold is_bare_path, urlparse, urlsplit, split_scheme.
  rewrite Hcolon.
  rewrite string_eqb_decide, bool_decide_eq_false_2 by done.
  simpl.
  destruct (Py.split1 "#" uri) as [[u1 f]|];
    destruct (Py.split1 "?" _) as [[u2 q]|];
    by destruct (_ && _); try destruct (_splitparams _).
Qed.

(** *** The image tag *)

Lemma slice_to_prefix n s :
  ∃ rest, s = Py.slice_to n s +:+ rest
          ∧ String.length (Py.slice_to n s) = n `min` String.length s.
Proof.
  revert s. induction n as [|n IH]; intros s.
  - exists s. by destruct s.
  - destruct s as [|a s]; [by exists ""|].
    destruct (IH s) as (rest & Hs & Hlen). exists rest. simpl.
    split; [|by rewrite Hlen].
    change (String a s = String a (Py.slice_to n s +:+ rest)). by f_equal.
Qed.

Lemma slice_to_all n s : String.length s ≤ n → Py.slice_to n s = s.
Proof.
  revert s. induction n as [|n IH]; intros [|a s]; simpl; try done; [lia|].
  intros Hlen. f_equal. apply IH. lia.
Qed.

(** C3. The image tag is the repository URI, or [docker-project] when
    that is empty, followed, when the working directory has a revision
    identifier, by a colon and the first seven characters of the
    identifier (all of it when it has fewer), and by nothing when there
    is no identifier. An identifier is a non-empty string; the empty
    string counts as none, as in the test [if git_commit]. *)
Theorem image_uri_prefix_and_short_revision repository_uri work_dir :
  let prefix := if decide (repository_uri = "") then "docker-project"
                else repository_uri in
  match _get_git_commit work_dir with
  | Some (String a commit') =>
      let commit := String a commit' in
      ∃ short rest,
        commit = short +:+ rest
        ∧ String.length short = 7 `min` String.length commit
        ∧ (String.length commit ≤ 7 → short = commit)
        ∧ _get_docker_image_uri repository_uri work_dir = prefix +:+ ":" +:+ short
  | Some EmptyString | None =>
      _get_docker_image_uri repository_uri work_dir = prefix
  end.
Proof.
  intros prefix. unfold _get_docker_image_uri.
  assert ((if Py.truthy repository_uri then repository_uri else "docker-project")
          = prefix) as ->.
  { unfold prefix. destruct repository_uri; by case_decide. }
  assert (∀ s, s +:+ "" = s) as Hnil.
  { intros s. induction s as [|c s IH]; [done|].
    change (String c (s +:+ "") = String c s). by rewrite IH. }
  destruct (_get_git_commit work_dir) as [[|a commit']|]; [by rewrite Hnil| |by rewrite Hnil].
  set (commit := String a commit').
  destruct (slice_to_prefix 7 commit) as (rest & Hsplit & Hlen).
  exists (Py.slice_to 7 commit), rest. split_and!; try done.
  apply slice_to_all.
Qed.

(** *** The filesystem *)

Lemma lookup_nil n : FS.lookup [] n = Some n.
Proof. done. Qed.

Lemma lookup_cons x p t es :
  FS.lookup (x :: p) (Dir t es) = es !! x ≫= FS.lookup p.
Proof. done. Qed.

Lemma lookup_cons_file x p t d : FS.lookup (x :: p) (File t d) = None.
Proof. done. Qed.

Lemma put_nil parents now new n : FS.put parents now [] new n = Some new.
Proof. done. Qed.

Lemma put_single parents now x new t es :
  FS.put parents now [x] new (Dir t es) =
    Some (Dir (match es !! x with Some _ => t | None => now end) (<[x:=new]> es)).
Proof. done. Qed.

Lemma put_cons parents now x y p new t es :
  FS.put parents now (x :: y :: p) new (Dir t es) =
    match es !! x with
    | Some child =>
        child' ← FS.put parents now (y :: p) new child;
        Some (Dir t (<[x:=child']> es))
    | None =>
        if parents then
          child' ← FS.put parents now (y :: p) new (Dir now ∅);
          Some (Dir now (<[x:=child']> es))
        else None
    end.
Proof. done. Qed.

Lemma remove_single now x t es :
  FS.remove now [x] (Dir t es) =
    match es !! x with
    | Some _ => Some (Dir now (delete x es))
    | None => None
    end.
Proof. done. Qed.

Lemma remove_cons now x y p t es :
  FS.remove now (x :: y :: p) (Dir t es) =
    child ← es !! x;
    child' ← FS.remove now (y :: p) child;
    Some (Dir t (<[x:=child']> es)).
Proof. done. Qed.

Local Opaque FS.lookup FS.put FS.remove.

Lemma lookup_app p q n : FS.lookup (p ++ q) n = FS.lookup p n ≫= FS.lookup q.
Proof.
  revert n. induction p as [|x p IH]; intros n; [done|].
  destruct n as [t d|t es]; [done|].
  rewrite <-app_comm_cons, !lookup_cons.
  destruct (es !! x) as [child|]; simpl; [apply IH|done].
Qed.

Lemma lookup_empty_dir t p : p ≠ [] → FS.lookup p (Dir t ∅) = None.
Proof.
  destruct p as [|x p]; [done|]. intros _.
  by rewrite lookup_cons, lookup_empty.
Qed.

Lemma remove_lookup now p n n' :
  FS.remove now p n = Some n' → FS.lookup p n' = None.
Proof.
  revert n n'. induction p as [|x p IH]; intros n n' Hrm; [done|].
  destruct n as [t d|t es]; [done|].
  destruct p as [|y p].
  - rewrite remove_single in Hrm. destruct (es !! x); simplify_eq.
    by rewrite lookup_cons, lookup_delete_eq.
  - rewrite remove_cons in Hrm.
    destruct (es !! x) as [child|]; [|done]. simpl in Hrm.
    destruct (FS.remove now (y :: p) child) as [child'|] eqn:Hchild; simplify_eq/=.
    rewrite lookup_cons, lookup_insert_eq. simpl.
    by apply (IH child).
Qed.

Lemma remove_is_Some now p n :
  p ≠ [] → is_Some (FS.lookup p n) → is_Some (FS.remove now p n).
Proof.
  revert n. induction p as [|x p IH]; intros n Hp Hn; [done|].
  destruct n as [t d|t es]; [by destruct Hn|].
  rewrite lookup_cons in Hn.
  destruct (es !! x) as [child|] eqn:Hx; [|by destruct Hn]. simpl in Hn.
  destruct p as [|y p].
  - rewrite remove_single, Hx. eauto.
  - rewrite remove_cons, Hx. simpl.
    destruct (IH child) as [child' ->]; [done|done|]. simpl. eauto.
Qed.

Lemma put_lookup parents now p new n n' :
  FS.put parents now p new n = Some n' → FS.lookup p n' = Some new.
Proof.
  revert n n'. induction p as [|x p IH]; intros n n' Hput.
  { rewrite put_nil in Hput. by simplify_eq. }
  destruct n as [t d|t es]; [done|].
  destruct p as [|y p].
  - rewrite put_single in Hput. simplify_eq.
    by rewrite lookup_cons, lookup_insert_eq.
  - rewrite put_cons in Hput. destruct (es !! x) as [child|].
    + destruct (FS.put parents now (y :: p) new child) as [child'|] eqn:Hchild;
        simplify_eq/=.
      rewrite lookup_cons, lookup_insert_eq. simpl. by apply (IH child).
    + destruct parents; [|done].
      destruct (FS.put true now (y :: p) new (Dir now ∅)) as [child'|] eqn:Hchild;
        simplify_eq/=.
      rewrite lookup_cons, lookup_insert_eq. simpl. by apply (IH (Dir now ∅)).
Qed.

Lemma diverge_cons x p q : diverge (x :: p) (x :: q) → diverge p q.
Proof.
  intros [H1 H2]. split; intros Hpre.
  - apply H1. by apply prefix_cons.
  - apply H2. by apply prefix_cons.
Qed.

Lemma diverge_nonempty p q : diverge p q → p ≠ [] ∧ q ≠ [].
Proof.
  intros [H1 H2]. split; intros ->.
  - apply H1, prefix_nil.
  - apply H2, prefix_nil.
Qed.

Lemma diverge_siblings (dir : fspath) x y r1 r2 :
  x ≠ y → diverge (dir ++ x :: r1) (dir ++ y :: r2).
Proof.
  intros Hne. split; intros Hpre; apply prefix_app_inv in Hpre;
    apply prefix_cons_inv_1 in Hpre; congruence.
Qed.

Lemma put_lookup_diverge parents now p q new n n' :
  diverge p q →
  FS.put parents now q new n = Some n' →
  FS.lookup p n' = FS.lookup p n.
Proof.
  revert p n n'. induction q as [|x q IH]; intros p n n' Hdiv Hput.
  { by destruct (diverge_nonempty _ _ Hdiv). }
  destruct p as [|y p]; [by destruct (diverge_nonempty _ _ Hdiv)|].
  destruct n as [t d|t es]; [done|].
  destruct (decide (x = y)) as [->|Hxy].
  - apply diverge_cons in Hdiv.
    destruct (diverge_nonempty _ _ Hdiv) as [Hp Hq].
    destruct q as [|z q]; [done|].
    rewrite put_cons in Hput.
    destruct (es !! y) as [child|] eqn:Hy.
    + destruct (FS.put parents now (z :: q) new child) as [child'|] eqn:Hchild;
        simplify_eq/=.
      rewrite !lookup_cons, lookup_insert_eq, Hy. simpl.
      by apply (IH p child).
    + destruct parents; [|done].
      destruct (FS.put true now (z :: q) new (Dir now ∅)) as [child'|] eqn:Hchild;
        simplify_eq/=.
      rewrite !lookup_cons, lookup_insert_eq, Hy. simpl.
      rewrite (IH p (Dir now ∅) child') by done.
      by apply lookup_empty_dir.
  - assert (∃ t' v, n' = Dir t' (<[x:=v]> es)) as (t' & v & ->).
    { destruct q as [|z q].
      - rewrite put_single in Hput. simplify_eq. eauto.
      - rewrite put_cons in Hput. destruct (es !! x) as [child|].
        + destruct (FS.put _ _ _ _ child); simplify_eq/=; eauto.
        + destruct parents; [|done].
          destruct (FS.put _ _ _ _ _); simplify_eq/=; eauto. }
    by rewrite !lookup_cons, lookup_insert_ne.
Qed.

Lemma remove_lookup_diverge now p q n n' :
  diverge p q →
  FS.remove now q n = Some n' →
  FS.lookup p n' = FS.lookup p n.
Proof.
  revert p n n'. induction q as [|x q IH]; intros p n n' Hdiv Hrm; [done|].
  destruct p as [|y p]; [by destruct (diverge_nonempty _ _ Hdiv)|].
  destruct n as [t d|t es]; [done|].
  destruct (decide (x = y)) as [->|Hxy].
  - apply diverge_cons in Hdiv.
    destruct (diverge_nonempty _ _ Hdiv) as [Hp Hq].
    destruct q as [|z q]; [done|].
    rewrite remove_cons in Hrm.
    destruct (es !! y) as [child|] eqn:Hy; [|done]. simpl in Hrm.
    destruct (FS.remove now (z :: q) child) as [child'|] eqn:Hchild; simplify_eq/=.
    rewrite !lookup_cons, lookup_insert_eq, Hy. simpl.
    by apply (IH p child).
  - assert (∃ t' es', n' = Dir t' es' ∧ es' !! y = es !! y) as (t' & es' & -> & Hy).
    { destruct q as [|z q].
      - rewrite remove_single in Hrm. destruct (es !! x); simplify_eq.
        eexists _, _. split; [done|]. by rewrite lookup_delete_ne.
      - rewrite remove_cons in Hrm.
        destruct (es !! x) as [child|]; [|done]. simpl in Hrm.
        destruct (FS.remove _ _ child); simplify_eq/=.
        eexists _, _. split; [done|]. by rewrite lookup_insert_ne. }
    by rewrite !lookup_cons, Hy.
Qed.

Lemma put_entry_lookup_parent now q x new n n' t es :
  FS.lookup q n = Some (Dir t es) →
  FS.put false now (q ++ [x]) new n = Some n' →
  ∃ t', FS.lookup q n' = Some (Dir t' (<[x:=new]> es)).
Proof.
  revert n n'. induction q as [|y q IH]; intros n n' Hq Hput.
  - rewrite lookup_nil in Hq. simplify_eq. simpl in Hput.
    rewrite put_single in Hput. simplify_eq. rewrite lookup_nil. eauto.
  - destruct n as [t0 d0|t0 es0]; [done|]. rewrite lookup_cons in Hq.
    destruct (es0 !! y) as [child|] eqn:Hy; [|done]. simpl in Hq.
    rewrite <-app_comm_cons in Hput.
    destruct (q ++ [x]) as [|z r] eqn:Hqx; [by destruct q|].
    rewrite put_cons, Hy in Hput.
    destruct (FS.put false now (z :: r) new child) as [child'|] eqn:Hchild;
      simplify_eq/=.
    rewrite lookup_cons, lookup_insert_eq. simpl.
    by apply (IH child).
Qed.

(** *** Temporary names and the removal of a tree *)

Lemma mktemp_loop_Ok fresh names w file w' :
  mktemp_loop fresh names w = (Ok file, w') →
  ∃ name root,
    file = tempdir w ++ [name]
    ∧ FS.lookup file (fs w) = None
    ∧ FS.put false (clock w) file (fresh (clock w)) (fs w) = Some root
    ∧ fs w' = root
    ∧ tempdir w' = tempdir w.
Proof.
  induction names as [|name rest IH]; simpl; intros Hloop; [done|].
  destruct (FS.lookup (tempdir w ++ _) (fs w)) as [?|] eqn:Hfree; [by apply IH|].
  destruct (FS.put false (clock w) (tempdir w ++ _) _ (fs w)) as [root|] eqn:Hput;
    [|done].
  simplify_eq. by exists ("tmp" +:+ name), root.
Qed.

Lemma isdir_lookup_None p n : FS.lookup p n = None → FS.isdir p n = false.
Proof. unfold FS.isdir. by intros ->. Qed.

Lemma rmtree_not_dir directory w :
  directory ≠ [] → FS.isdir directory (fs (Posix.rmtree directory w).2) = false.
Proof.
  intros Hne. unfold Posix.rmtree.
  destruct (FS.lookup directory (fs w)) as [[t d|t es]|] eqn:Hlook; simpl.
  - unfold FS.isdir. by rewrite Hlook.
  - destruct (remove_is_Some (clock w) directory (fs w)) as [root Hroot];
      [done|by rewrite Hlook|].
    rewrite Hroot. simpl.
    apply isdir_lookup_None. by apply (remove_lookup (clock w) _ (fs w)).
  - by apply isdir_lookup_None.
Qed.

Lemma try_finally_state {A} (body : M A) (cleanup : M unit) w :
  (try_finally body cleanup w).2 = (cleanup (body w).2).2.
Proof.
  unfold try_finally. destruct (body w) as [r w1]. simpl.
  by destruct (cleanup w1) as [[?|?] w2].
Qed.

(** X16. On a host whose [shutil.rmtree] meets only writable
    directories, the staging directory that [_create_docker_build_ctx]
    creates is not a directory before the call and is not one after it,
    whatever the copy, the write of the manifest, the creation of the
    archive file and the archiving do: they may succeed, raise, and leave
    any partial effect behind. *)
Theorem staging_directory_removed_by_working_rmtree {host : Host}
    work_dir dockerfile_contents w directory w1 :
  rmtree = Posix.rmtree →
  mkdtemp w = (Ok directory, w1) →
  FS.isdir directory (fs w) = false
  ∧ FS.isdir directory
      (fs (_create_docker_build_ctx work_dir dockerfile_contents w).2) = false.
Proof.
  intros Hrm Hmk. unfold mkdtemp in Hmk.
  destruct (mktemp_loop_Ok _ _ _ _ _ Hmk) as (name & root & Hdir & Hfree & _).
  split; [by apply isdir_lookup_None|].
  unfold _create_docker_build_ctx, bind.
  unfold mkdtemp. rewrite Hmk.
  rewrite try_finally_state, Hrm. apply rmtree_not_dir.
  rewrite Hdir. by destruct (tempdir w).
Qed.

(** C7. When the image is built and the deletion of the archive raises,
    [build_docker_image] still returns the image: the exception is
    logged, and the image URI and the image identifier are handed to the
    tracking client, in this order, as the last two tags. *)
Theorem archive_deletion_failure_not_fatal {host : Host}
    work_dir repository_uri base_image run_id w
    build_ctx_path w1 image w2 e w3 :
  let image_uri := _get_docker_image_uri repository_uri work_dir in
  _create_docker_build_ctx work_dir (dockerfile_text base_image) w
    = (Ok build_ctx_path, w1) →
  build_from_context image_uri build_ctx_path w1 = (Ok image, w2) →
  os_remove build_ctx_path w2 = (Raise e, w3) →
  ∃ w',
    build_docker_image work_dir repository_uri base_image run_id w = (Ok image, w')
    ∧ tags w' = tags w3 ++ [(run_id, MLFLOW_DOCKER_IMAGE_URI, image_uri);
                            (run_id, MLFLOW_DOCKER_IMAGE_ID, image_id image)]
    ∧ fs w' = fs w3
    ∧ log w' = log w3 ++ ["Temporary docker context file "
                          +:+ path_string build_ctx_path +:+ " was not deleted."].
Proof.
  intros image_uri Hctx Hbuild Hremove.
  unfold build_docker_image, bind.
  rewrite Hctx. fold image_uri. rewrite Hbuild.
  unfold try_except. rewrite Hremove. simpl.
  eexists. split; [reflexivity|]. simpl.
  by rewrite <-app_assoc.
Qed.
(** *** The build context on the host without faults *)

Lemma bind_Ok {A B} (m : M A) (k : A → M B) w b w' :
  bind m k w = (Ok b, w') → ∃ a w1, m w = (Ok a, w1) ∧ k a w1 = (Ok b, w').
Proof.
  unfold bind. destruct (m w) as [[a|e] w1]; [eauto|done].
Qed.

Lemma try_finally_Ok {A} (body : M A) (cleanup : M unit) w a w' :
  try_finally body cleanup w = (Ok a, w') →
  ∃ w1 u, body w = (Ok a, w1) ∧ cleanup w1 = (Ok u, w').
Proof.
  unfold try_finally. destruct (body w) as [r w1].
  destruct (cleanup w1) as [[u|e] w2] eqn:Hc; [|done].
  intros [= -> ->]. eauto.
Qed.

Lemma copytree_Ok src dst w u w' :
  Posix.copytree src dst w = (Ok u, w') →
  ∃ t es root,
    FS.lookup src (fs w) = Some (Dir t es)
    ∧ ¬ src `prefix_of` dst
    ∧ FS.put true (clock w) dst (Dir t es) (fs w) = Some root
    ∧ w' = set_fs root w.
Proof.
  unfold Posix.copytree.
  destruct (FS.lookup src (fs w)) as [[t d|t es]|]; [done| |done].
  destruct (FS.lookup dst (fs w)); [done|].
  case_bool_decide; [done|].
  destruct (FS.put true _ dst _ _) as [root|] eqn:Hput; [|done].
  intros [= <-]. by exists t, es, root.
Qed.

Lemma write_file_Ok path data w u w' :
  Posix.write_file path data w = (Ok u, w') →
  ∃ root,
    FS.put false (clock w) path (File (clock w) data) (fs w) = Some root
    ∧ w' = set_fs root w.
Proof.
  unfold Posix.write_file. intros Hw.
  destruct (FS.put false _ path _ _) as [root|] eqn:Hput.
  - exists root. split; [done|].
    by destruct (FS.lookup path (fs w)) as [[]|]; simplify_eq.
  - by destruct (FS.lookup path (fs w)) as [[]|].
Qed.

Lemma rmtree_Ok path w u w' :
  Posix.rmtree path w = (Ok u, w') →
  ∃ root, FS.remove (clock w) path (fs w) = Some root ∧ w' = set_fs root w.
Proof.
  unfold Posix.rmtree.
  destruct (FS.lookup path (fs w)) as [[t d|t es]|]; [done| |done].
  destruct (FS.remove _ path _) as [root|]; [|done].
  intros [= <-]. by exists root.
Qed.

Lemma diverge_sym p q : diverge p q → diverge q p.
Proof. by intros [? ?]. Qed.

Lemma lookup_prefix_None p q n :
  p `prefix_of` q → FS.lookup p n = None → FS.lookup q n = None.
Proof. intros [r ->] Hp. by rewrite lookup_app, Hp. Qed.

(** What a successful call leaves behind: the archive at the returned
    path holds the entries of the working directory and the manifest;
    the working directory is a directory and did not hold the temporary
    directory. *)
Lemma build_ctx_archive work_dir dockerfile_contents w result_path w' :
  _create_docker_build_ctx (host := Posix.host) work_dir dockerfile_contents w
    = (Ok result_path, w') →
  ∃ t es archive_mtime root_mtime manifest_mtime,
    FS.lookup work_dir (fs w) = Some (Dir t es)
    ∧ FS.lookup result_path (fs w') =
        Some (File archive_mtime
                (TarGz _PROJECT_TAR_ARCHIVE_NAME
                   (Dir root_mtime
                      (<[_GENERATED_DOCKERFILE_NAME :=
                           File manifest_mtime (Bytes dockerfile_contents)]> es)))).
Proof.
  intros Hrun. unfold _create_docker_build_ctx in Hrun.
  apply bind_Ok in Hrun as (directory & w1 & Hmk & Hrun).
  apply try_finally_Ok in Hrun as (w5 & u & Hbody & Hrm).
  apply bind_Ok in Hbody as (u2 & w2 & Hcopy & Hbody).
  apply bind_Ok in Hbody as (u3 & w3 & Hwrite & Hbody).
  apply bind_Ok in Hbody as (result_path' & w4 & Hmks & Hbody).
  apply bind_Ok in Hbody as (u5 & w5' & Htar & Hret).
  unfold ret in Hret. simplify_eq.
  set (dst_path := directory ++ [staging_subdirectory]) in *.
  (* the staging directory *)
  apply mktemp_loop_Ok in Hmk
    as (name1 & root1 & Hdir & Hfree1 & Hput1 & <- & Htmp1).
  (* the copy *)
  apply copytree_Ok in Hcopy as (t & es & root2 & Hsrc & Hnotin & Hput2 & ->).
  (* the manifest *)
  apply write_file_Ok in Hwrite as (root3 & Hput3 & ->).
  (* the archive file *)
  apply mktemp_loop_Ok in Hmks
    as (name2 & root4 & Hres & Hfree2 & Hput4 & <- & Htmp4).
  simpl in *.
  (* the archive *)
  unfold Posix.make_tarfile in Htar.
  destruct (FS.lookup dst_path (fs w4)) as [tree|] eqn:Htree; [|done].
  apply write_file_Ok in Htar as (root5 & Hput5 & ->).
  (* the removal *)
  apply rmtree_Ok in Hrm as (root6 & Hrm & ->). simpl in *.
  (* the staged tree *)
  pose proof (put_lookup _ _ _ _ _ _ Hput2) as Hdst2.
  destruct (put_entry_lookup_parent _ _ _ _ _ _ _ _ Hdst2 Hput3)
    as (root_mtime & Hdst3).
  (* the two temporary names differ *)
  assert (name1 ≠ name2) as Hnames.
  { intros ->. rewrite Htmp1, <-Hdir in Hres. subst result_path.
    assert (FS.lookup dst_path root3 = None) as Hnone
      by (apply (lookup_prefix_None directory); [by apply prefix_app_r|done]).
    congruence. }
  assert (diverge dst_path result_path) as Hdiv_dst.
  { subst dst_path. rewrite Hdir, Hres, Htmp1, <-app_assoc.
    by apply diverge_siblings. }
  assert (diverge result_path directory) as Hdiv_dir.
  { rewrite Hdir, Hres, Htmp1. by apply diverge_siblings. }
  (* the working directory is untouched by the staging directory *)
  assert (diverge work_dir directory) as Hdiv_work.
  { split.
    - intros Hpre. apply Hnotin. etrans; [done|]. by apply prefix_app_r.
    - intros [r ->].
      rewrite lookup_app, (put_lookup _ _ _ _ _ _ Hput1) in Hsrc.
      simpl in Hsrc. destruct r as [|x r].
      + apply Hnotin. rewrite app_nil_r. by apply prefix_app_r.
      + by rewrite lookup_empty_dir in Hsrc. }
  exists t, es, (clock w4), root_mtime, (S (clock w1)).
  split.
  - rewrite <-Hsrc. symmetry.
    by apply (put_lookup_diverge _ _ _ _ _ _ _ Hdiv_work Hput1).
  - rewrite (remove_lookup_diverge _ _ _ _ _ Hdiv_dir Hrm).
    rewrite (put_lookup _ _ _ _ _ _ Hput5). do 3 f_equal.
    rewrite (put_lookup_diverge _ _ _ _ _ _ _ Hdiv_dst Hput4) in Htree.
    congruence.
Qed.

Lemma lookup_entry x t es : FS.lookup [x] (Dir t es) = es !! x.
Proof.
  rewrite lookup_cons. destruct (es !! x); simpl; [apply lookup_nil|done].
Qed.

(** C5, amended. On the host without faults the file that
    [_create_docker_build_ctx] returns is a gzip-compatible tar stream
    with one root entry, named [mlflow-project-docker-build-context]:
    the archive name, which is not the name of the staging subdirectory
    ([mlflow-project-contents]). The tree under that entry holds the
    manifest as [Dockerfile.mlflow-autogenerated] and, under every other
    name, what the working directory holds. *)
Theorem archive_root_and_manifest work_dir dockerfile_contents w result_path w' :
  _create_docker_build_ctx (host := Posix.host) work_dir dockerfile_contents w
    = (Ok result_path, w') →
  ∃ t es archive_mtime tree manifest_mtime,
    FS.lookup work_dir (fs w) = Some (Dir t es)
    ∧ FS.lookup result_path (fs w') =
        Some (File archive_mtime
                (TarGz "mlflow-project-docker-build-context" tree))
    ∧ FS.lookup ["Dockerfile.mlflow-autogenerated"] tree =
        Some (File manifest_mtime (Bytes dockerfile_contents))
    ∧ (∀ name, name ≠ "Dockerfile.mlflow-autogenerated" →
               FS.lookup [name] tree = es !! name)
    ∧ staging_subdirectory = "mlflow-project-contents"
    ∧ staging_subdirectory ≠ "mlflow-project-docker-build-context".
Proof.
  intros Hrun.
  destruct (build_ctx_archive _ _ _ _ _ Hrun)
    as (t & es & archive_mtime & root_mtime & manifest_mtime & Hsrc & Harchive).
  exists t, es, archive_mtime. eexists _, manifest_mtime.
  split_and!; [done|exact Harchive| | |done|done].
  - rewrite lookup_entry. apply lookup_insert_eq.
  - intros name Hname. rewrite lookup_entry. by apply lookup_insert_ne.
Qed.

(** C8. Two runs of [_create_docker_build_ctx] with the same manifest, in
    two worlds that hold the same working directory, return two files
    that are gzip tar streams. Each has the root entry
    [mlflow-project-docker-build-context] over the entries of the working
    directory and the manifest; each can be extracted; and what the two
    extract to is equal once every modification time is set to zero, as
    the archives themselves are. *)
Theorem build_context_reproducible work_dir dockerfile_contents
    w1 w2 path1 path2 w1' w2' :
  FS.lookup work_dir (fs w1) = FS.lookup work_dir (fs w2) →
  _create_docker_build_ctx (host := Posix.host) work_dir dockerfile_contents w1
    = (Ok path1, w1') →
  _create_docker_build_ctx (host := Posix.host) work_dir dockerfile_contents w2
    = (Ok path2, w2') →
  ∃ t es mtime1 mtime2 archive1 archive2 root_mtime1 root_mtime2
    manifest_mtime1 manifest_mtime2 unpacked1 unpacked2,
    FS.lookup work_dir (fs w1) = Some (Dir t es)
    ∧ FS.lookup path1 (fs w1') = Some (File mtime1 archive1)
    ∧ FS.lookup path2 (fs w2') = Some (File mtime2 archive2)
    ∧ archive1 =
        TarGz _PROJECT_TAR_ARCHIVE_NAME
          (Dir root_mtime1
             (<[_GENERATED_DOCKERFILE_NAME :=
                  File manifest_mtime1 (Bytes dockerfile_contents)]> es))
    ∧ archive2 =
        TarGz _PROJECT_TAR_ARCHIVE_NAME
          (Dir root_mtime2
             (<[_GENERATED_DOCKERFILE_NAME :=
                  File manifest_mtime2 (Bytes dockerfile_contents)]> es))
    ∧ extract archive1 = Some unpacked1
    ∧ extract archive2 = Some unpacked2
    ∧ FS.strip_mtime unpacked1 = FS.strip_mtime unpacked2
    ∧ FS.strip_mtime_content archive1 = FS.strip_mtime_content archive2.
Proof.
  intros Hsame Hrun1 Hrun2.
  destruct (build_ctx_archive _ _ _ _ _ Hrun1)
    as (t1 & es1 & a1 & r1 & m1 & Hsrc1 & Harchive1).
  destruct (build_ctx_archive _ _ _ _ _ Hrun2)
    as (t2 & es2 & a2 & r2 & m2 & Hsrc2 & Harchive2).
  pose proof Hsrc1 as Hsrc. rewrite Hsame, Hsrc2 in Hsrc1.
  injection Hsrc1 as -> ->.
  exists t1, es1, a1, a2. eexists _, _. exists r1, r2, m1, m2. eexists _, _.
  split_and!;
    [exact Hsrc|exact Harchive1|exact Harchive2|done|done|done|done| |].
  - simpl. rewrite !map_fmap_singleton. simpl. by rewrite !fmap_insert.
  - simpl. by rewrite !fmap_insert.
Qed.

(** *** When the call succeeds *)

Lemma lookup_app_Some_dir p x r n node :
  FS.lookup (p ++ x :: r) n = Some node → ∃ t es, FS.lookup p n = Some (Dir t es).
Proof.
  rewrite lookup_app. destruct (FS.lookup p n) as [[t d|t es]|]; [done|eauto|done].
Qed.

Lemma put_entry_is_Some parents now q x new n t es :
  FS.lookup q n = Some (Dir t es) →
  is_Some (FS.put parents now (q ++ [x]) new n).
Proof.
  revert n. induction q as [|y q IH]; intros n Hq.
  - rewrite lookup_nil in Hq. simplify_eq. simpl. rewrite put_single. eauto.
  - destruct n as [t0 d0|t0 es0]; [done|]. rewrite lookup_cons in Hq.
    destruct (es0 !! y) as [child|] eqn:Hy; [|done]. simpl in Hq.
    rewrite <-app_comm_cons.
    destruct (q ++ [x]) as [|z r] eqn:Hqx; [by destruct q|].
    rewrite put_cons, Hy.
    destruct (IH child Hq) as [child' ->]. simpl. eauto.
Qed.

Lemma prefix_snoc_inv (p q : fspath) x :
  p `prefix_of` q ++ [x] → p `prefix_of` q ∨ p = q ++ [x].
Proof.
  intros [r Hr]. destruct (decide (r = [])) as [->|Hne].
  - right. by rewrite app_nil_r in Hr.
  - left. destruct (exists_last Hne) as (r' & y & ->).
    rewrite app_assoc in Hr. apply app_inj_tail in Hr as [-> _].
    by apply prefix_app_r.
Qed.

Lemma mktemp_loop_first fresh name rest w root :
  candidate_names w = name :: rest →
  FS.lookup (tempdir w ++ ["tmp" +:+ name]) (fs w) = None →
  FS.put false (clock w) (tempdir w ++ ["tmp" +:+ name]) (fresh (clock w)) (fs w)
    = Some root →
  mktemp_loop fresh (candidate_names w) w
    = (Ok (tempdir w ++ ["tmp" +:+ name]), set_fs root (set_candidate_names rest w)).
Proof. intros -> Hfree Hput. simpl. by rewrite Hfree, Hput. Qed.

Lemma copytree_succeeds src dst w t es root :
  FS.lookup src (fs w) = Some (Dir t es) →
  FS.lookup dst (fs w) = None →
  ¬ src `prefix_of` dst →
  FS.put true (clock w) dst (Dir t es) (fs w) = Some root →
  Posix.copytree src dst w = (Ok (), set_fs root w).
Proof.
  intros Hsrc Hdst Hnotin Hput. unfold Posix.copytree.
  by rewrite Hsrc, Hdst, bool_decide_eq_false_2, Hput.
Qed.

Lemma write_file_succeeds path data w root :
  (∀ t es, FS.lookup path (fs w) ≠ Some (Dir t es)) →
  FS.put false (clock w) path (File (clock w) data) (fs w) = Some root →
  Posix.write_file path data w = (Ok (), set_fs root w).
Proof.
  intros Hpath Hput. unfold Posix.write_file. rewrite Hput.
  destruct (FS.lookup path (fs w)) as [[t d|t es]|] eqn:Hlook; try done.
  by destruct (Hpath t es).
Qed.

Lemma rmtree_succeeds path w t es :
  path ≠ [] →
  FS.lookup path (fs w) = Some (Dir t es) →
  ∃ root, Posix.rmtree path w = (Ok (), set_fs root w).
Proof.
  intros Hne Hpath. unfold Posix.rmtree. rewrite Hpath.
  destruct (remove_is_Some (clock w) path (fs w)) as [root ->];
    [done|by rewrite Hpath|]. eauto.
Qed.

(** X14. On the host without faults the call returns, and returns the
    temporary directory joined with the second temporary name, when the
    working directory is a directory that does not hold the temporary
    directory, the next two temporary names are free and differ, and the
    project holds no directory under the name of the manifest. *)
Lemma build_ctx_succeeds work_dir dockerfile_contents w t es tmp_mtime tmp_entries
    name1 name2 rest :
  FS.lookup work_dir (fs w) = Some (Dir t es) →
  FS.lookup (tempdir w) (fs w) = Some (Dir tmp_mtime tmp_entries) →
  ¬ work_dir `prefix_of` tempdir w →
  candidate_names w = name1 :: name2 :: rest →
  name1 ≠ name2 →
  tmp_entries !! ("tmp" +:+ name1) = None →
  tmp_entries !! ("tmp" +:+ name2) = None →
  (∀ t' es', es !! _GENERATED_DOCKERFILE_NAME ≠ Some (Dir t' es')) →
  ∃ w',
    _create_docker_build_ctx (host := Posix.host) work_dir dockerfile_contents w
      = (Ok (tempdir w ++ ["tmp" +:+ name2]), w').
Proof.
  intros Hsrc Htmp Hout Hnames Hne Hfree1 Hfree2 Hmanifest.
  set (directory := tempdir w ++ ["tmp" +:+ name1]).
  set (result_path := tempdir w ++ ["tmp" +:+ name2]).
  set (dst_path := directory ++ [staging_subdirectory]).
  set (manifest := dst_path ++ [_GENERATED_DOCKERFILE_NAME]).
  assert ("tmp" +:+ name1 ≠ "tmp" +:+ name2) as Hne' by (by intros [= ?]).
  assert (diverge result_path directory) as Hdiv_dir
    by (apply diverge_siblings; congruence).
  assert (diverge dst_path result_path) as Hdiv_dst.
  { unfold dst_path, directory. rewrite <-app_assoc. by apply diverge_siblings. }
  assert (diverge result_path manifest) as Hdiv_manifest.
  { unfold manifest, dst_path, directory. rewrite <-!app_assoc.
    apply diverge_siblings; congruence. }
  assert (FS.lookup directory (fs w) = None) as Hdir0.
  { unfold directory. rewrite lookup_app, Htmp. simpl. by rewrite lookup_entry. }
  assert (FS.lookup result_path (fs w) = None) as Hres0.
  { unfold result_path. rewrite lookup_app, Htmp. simpl. by rewrite lookup_entry. }
  assert (diverge work_dir directory) as Hdiv_work.
  { split.
    - intros [Hpre| ->]%prefix_snoc_inv; [done|unfold directory in Hdir0; congruence].
    - intros Hpre. by rewrite (lookup_prefix_None _ _ _ Hpre Hdir0) in Hsrc. }
  (* the staging directory *)
  destruct (put_entry_is_Some false (clock w) (tempdir w) ("tmp" +:+ name1)
              (Dir (clock w) ∅) (fs w) _ _ Htmp) as [root1 Hput1].
  pose proof (mktemp_loop_first (λ now, Dir now ∅) _ _ _ _ Hnames Hdir0 Hput1) as Hmk.
  set (w1 := set_fs root1 (set_candidate_names (name2 :: rest) w)) in *.
  pose proof (put_lookup _ _ _ _ _ _ Hput1) as Hdir1.
  assert (FS.lookup work_dir root1 = Some (Dir t es)) as Hsrc1.
  { rewrite <-Hsrc. apply (put_lookup_diverge _ _ _ _ _ _ _ Hdiv_work Hput1). }
  (* the copy *)
  assert (FS.lookup dst_path root1 = None) as Hdst1.
  { unfold dst_path. rewrite lookup_app. fold directory in Hdir1.
    rewrite Hdir1. simpl. by rewrite lookup_entry. }
  assert (¬ work_dir `prefix_of` dst_path) as Hnotin.
  { intros [Hpre| ->]%prefix_snoc_inv; [by destruct Hdiv_work|].
    unfold dst_path in Hdst1. congruence. }
  destruct (put_entry_is_Some true (clock w1) directory staging_subdirectory
              (Dir t es) root1 _ _ Hdir1) as [root2 Hput2].
  pose proof (copytree_succeeds work_dir dst_path w1 t es root2 Hsrc1 Hdst1 Hnotin Hput2)
    as Hcopy.
  set (w2 := set_fs root2 w1) in *.
  pose proof (put_lookup _ _ _ _ _ _ Hput2) as Hdst2.
  (* the manifest *)
  destruct (put_entry_is_Some false (clock w2) dst_path _GENERATED_DOCKERFILE_NAME
              (File (clock w2) (Bytes dockerfile_contents)) root2 _ _ Hdst2)
    as [root3 Hput3].
  assert (Posix.write_file manifest (Bytes dockerfile_contents) w2
          = (Ok (), set_fs root3 w2)) as Hwrite.
  { apply write_file_succeeds; [|done].
    intros t' es'. unfold manifest. simpl. rewrite lookup_app.
    fold dst_path in Hdst2. rewrite Hdst2. simpl. rewrite lookup_entry.
    apply Hmanifest. }
  set (w3 := set_fs root3 w2) in *.
  destruct (put_entry_lookup_parent (clock w2) dst_path _GENERATED_DOCKERFILE_NAME
              _ root2 root3 t es Hdst2 Hput3) as (t3 & Hdst3).
  (* the archive file *)
  assert (FS.lookup result_path root3 = None) as Hres3.
  { rewrite (put_lookup_diverge _ _ _ _ _ _ _ Hdiv_manifest Hput3).
    rewrite (put_lookup_diverge _ _ _ _ _ _ _ (diverge_sym _ _ Hdiv_dst) Hput2).
    by rewrite (put_lookup_diverge _ _ _ _ _ _ _ Hdiv_dir Hput1). }
  assert (∃ t' es', FS.lookup (tempdir w) root3 = Some (Dir t' es'))
    as (t3' & es3' & Htmp3).
  { eapply (lookup_app_Some_dir (tempdir w) ("tmp" +:+ name1) [staging_subdirectory]).
    unfold dst_path, directory in Hdst3. rewrite <-app_assoc in Hdst3.
    exact Hdst3. }
  destruct (put_entry_is_Some false (clock w3) (tempdir w) ("tmp" +:+ name2)
              (File (clock w3) (Bytes "")) root3 _ _ Htmp3) as [root4 Hput4].
  assert (Posix.mkstemp w3 = (Ok result_path, set_fs root4 (set_candidate_names rest w3)))
    as Hmks.
  { by apply (mktemp_loop_first (λ now, File now (Bytes "")) name2 rest w3 root4). }
  set (w4 := set_fs root4 (set_candidate_names rest w3)) in *.
  pose proof (put_lookup _ _ _ _ _ _ Hput4) as Hres4.
  assert (FS.lookup dst_path root4 = FS.lookup dst_path root3) as Hdst4
    by apply (put_lookup_diverge _ _ _ _ _ _ _ Hdiv_dst Hput4).
  (* the archive *)
  assert (∃ t' es', FS.lookup (tempdir w) root4 = Some (Dir t' es'))
    as (t4' & es4' & Htmp4).
  { by eapply (lookup_app_Some_dir (tempdir w) ("tmp" +:+ name2) []). }
  destruct (put_entry_is_Some false (clock w4) (tempdir w) ("tmp" +:+ name2)
              (File (clock w4)
                 (TarGz _PROJECT_TAR_ARCHIVE_NAME
                    (Dir t3 (<[_GENERATED_DOCKERFILE_NAME :=
                                 File (clock w2) (Bytes dockerfile_contents)]> es))))
              root4 _ _ Htmp4) as [root5 Hput5].
  assert (Posix.make_tarfile result_path dst_path _PROJECT_TAR_ARCHIVE_NAME w4
          = (Ok (), set_fs root5 w4)) as Htar.
  { unfold Posix.make_tarfile. simpl. rewrite Hdst4, Hdst3.
    apply write_file_succeeds; [|done].
    intros t' es'. simpl. fold result_path in Hres4. by rewrite Hres4. }
  set (w5 := set_fs root5 w4) in *.
  (* the removal *)
  assert (∃ t' es', FS.lookup directory root5 = Some (Dir t' es'))
    as (t5 & es5 & Hdir5).
  { rewrite (put_lookup_diverge _ _ _ _ _ _ _ (diverge_sym _ _ Hdiv_dir) Hput5).
    rewrite (put_lookup_diverge _ _ _ _ _ _ _ (diverge_sym _ _ Hdiv_dir) Hput4).
    by eapply (lookup_app_Some_dir directory staging_subdirectory []). }
  destruct (rmtree_succeeds directory w5 t5 es5) as [root6 Hrm];
    [unfold directory; by destruct (tempdir w)|done|].
  exists (set_fs root6 w5).
  unfold _create_docker_build_ctx, bind, try_finally, mkdtemp, ret.
  rewrite Hmk. simpl.
  fold directory dst_path manifest. unfold Posix.write_text.
  fold w1. rewrite Hcopy. fold w2. rewrite Hwrite. fold w3. rewrite Hmks.
  fold w4. rewrite Htar. fold w5. by rewrite Hrm.
Qed.

(** ** Further properties of the module *)

(** *** The two validations *)

Lemma truthy_opt_true_iff x : truthy_opt x = true ↔ ∃ s, x = Some s ∧ s ≠ "".
Proof.
  destruct x as [[|a s]|]; simpl; split; try done.
  - intros (s & [= <-] & Hne). done.
  - intros _. by eexists.
  - by intros (s & ? & _).
Qed.

(** X1. [validate_docker_env] returns exactly for the projects that have a
    non-empty name and a non-empty [image] entry in [docker_env]; a project
    without a name is refused for its name, whatever its [docker_env]. *)
Theorem validate_docker_env_accepts project :
  (validate_docker_env project = Returns ()
   ↔ (∃ name, project_name project = Some name ∧ name ≠ "")
     ∧ (∃ image, project_docker_env project !! "image" = Some image ∧ image ≠ ""))
  ∧ (truthy_opt (project_name project) = false →
     validate_docker_env project =
       Raises (ExecutionException
                 "Project name in MLProject must be specified when using docker for image tagging.")).
Proof.
  unfold validate_docker_env. rewrite <-!truthy_opt_true_iff.
  destruct (truthy_opt (project_name project));
    destruct (truthy_opt (project_docker_env project !! "image")); simpl;
    (split; [split; [try done; by intros [? ?]|by intros [? ?]]|done]).
Qed.

(** X2. An [OSError] of the [docker --help] call never leaves
    [validate_docker_installation]: the function raises its
    [ExecutionException] exactly when the call raised an exception of the
    [OSError] family, it passes on only exceptions outside that family,
    and it returns whenever the call returns, whatever the exit code. *)
Theorem validate_docker_installation_outcome w :
  let call := exec_cmd ["docker"; "--help"] false w in
  let r := (validate_docker_installation w).1 in
  ((∃ message, r = Raises (ExecutionException message))
   ↔ ∃ e, call.1 = Raise e ∧ is_environment_error e = true)
  ∧ (∀ e, r = Raises (Propagated e) →
          call.1 = Raise e ∧ is_environment_error e = false)
  ∧ (r = Returns () ↔ ∃ status, call.1 = Ok status).
Proof.
  intros call r. unfold r, validate_docker_installation. fold call.
  destruct call as [[status|e] w']; simpl.
  - split_and!.
    + split; [by intros [? ?]|by intros (? & ? & _)].
    + done.
    + split; [by eexists|done].
  - destruct (is_environment_error e) eqn:He; simpl; split_and!.
    + split; [by exists e|by eexists].
    + done.
    + split; [done|by intros [? ?]].
    + split; [by intros [? ?]|]. intros (e' & [= <-] & He'). congruence.
    + intros e' [= <-]. done.
    + split; [done|by intros [? ?]].
Qed.

(** *** The image tag and the translator again *)

Lemma slice_to_app short rest :
  Py.slice_to (String.length short) (short +:+ rest) = short.
Proof.
  induction short as [|a short IH]; simpl.
  - by destruct rest.
  - change (String a short +:+ rest) with (String a (short +:+ rest)).
    simpl. by rewrite IH.
Qed.

(** X3. The tag keeps seven characters of the commit and no more: two
    working directories whose commits start with the same seven characters
    get the same tag for the same repository. *)
Theorem image_uri_same_for_same_short_commit repository_uri work_dir1 work_dir2
    short rest1 rest2 :
  String.length short = 7 →
  _get_git_commit work_dir1 = Some (short +:+ rest1) →
  _get_git_commit work_dir2 = Some (short +:+ rest2) →
  _get_docker_image_uri repository_uri work_dir1
    = _get_docker_image_uri repository_uri work_dir2.
Proof.
  intros Hlen H1 H2. unfold _get_docker_image_uri. rewrite H1, H2.
  pose proof (slice_to_app short rest1) as Hs1.
  pose proof (slice_to_app short rest2) as Hs2.
  rewrite Hlen in Hs1, Hs2. rewrite Hs1, Hs2.
  assert (∀ rest, Py.truthy (short +:+ rest) = true) as Htruthy.
  { intros rest. by destruct short. }
  by rewrite !Htruthy.
Qed.

(** X4. Whatever the tracking URI, the translator does one of three
    things: it raises what [urlparse] raised, it returns no mount with the
    credential mapping as it is, or it returns a single [-v] pair ending in
    [:/mlflow/tmp/mlruns] with the credential mapping laid over the one
    binding of the tracking-URI variable to the SQLite or the file URI of
    [/mlflow/tmp/mlruns]. *)
Theorem translator_three_outcomes uri :
  (∃ e, get_docker_tracking_cmd_and_envs uri = Raise e ∧ urlparse uri = Raise e)
  ∨ get_docker_tracking_cmd_and_envs uri = Ok ([], get_databricks_env_vars uri)
  ∨ ∃ host_path rewritten,
      rewritten ∈ [path_to_local_sqlite_uri "/mlflow/tmp/mlruns";
                   path_to_local_file_uri "/mlflow/tmp/mlruns"]
      ∧ get_docker_tracking_cmd_and_envs uri =
          Ok (["-v"; host_path +:+ ":/mlflow/tmp/mlruns"],
              dict_update {[ _TRACKING_URI_ENV_VAR := rewritten ]}
                          (get_databricks_env_vars uri)).
Proof.
  unfold get_docker_tracking_cmd_and_envs, _get_local_uri_or_none.
  destruct (String.eqb uri "databricks").
  { right. left. by rewrite dict_update_empty. }
  destruct (urlparse uri) as [p|e]; [|left; by exists e].
  destruct (_ && _).
  - right. right. eexists _, _. split; [|reflexivity].
    destruct (String.eqb (scheme p) "sqlite"); set_solver.
  - right. left. by rewrite dict_update_empty.
Qed.

(** X5. The translator adds no variable but the tracking-URI one, and adds
    that one only together with a mount: a name that the result binds and
    the credential provider does not is the tracking-URI variable, and the
    mount list is then not empty. *)
Theorem translator_adds_only_tracking_uri uri cmds env name value :
  get_docker_tracking_cmd_and_envs uri = Ok (cmds, env) →
  env !! name = Some value →
  get_databricks_env_vars uri !! name = None →
  name = _TRACKING_URI_ENV_VAR ∧ cmds ≠ [].
Proof.
  intros Hrun Hname Hnew. unfold get_docker_tracking_cmd_and_envs in Hrun.
  destruct (_get_local_uri_or_none uri) as [[[local_path rewritten]|]|e];
    simplify_eq; rewrite dict_update_lookup_old in Hname by done.
  - by apply lookup_singleton_Some in Hname as [<- _].
  - by rewrite lookup_empty in Hname.
Qed.

Lemma find_None_contains c s : Py.contains c s = false ↔ Py.find c s = None.
Proof. unfold Py.contains. destruct (Py.find c s); split; congruence. Qed.

(** X6. A plain path is mounted as it is written: for a tracking URI
    other than [databricks] that holds none of the characters [:], [#],
    [?], [;] and [%], no tab, line feed or carriage return, and starts
    neither with two slashes nor with a space or a control character, the
    host half of the mount is the URI itself and the tracking-URI variable
    is set to the file URI of [/mlflow/tmp/mlruns]. The last two
    conditions keep to the URIs that every CPython splits alike: the
    later ones take tabs and line ends out of a URL and strip the control
    characters and spaces it starts with. *)
Theorem plain_path_mounted_verbatim uri :
  uri ≠ "databricks" →
  Py.slice_to 2 uri ≠ "//" →
  (∀ c, c ∈ [":"; "#"; "?"; ";"; "%"; "009"; "010"; "013"]%char →
        Py.contains c uri = false) →
  (∀ c rest, uri = String c rest → (32 < nat_of_ascii c)%nat) →
  get_docker_tracking_cmd_and_envs uri =
    Ok (["-v"; uri +:+ ":/mlflow/tmp/mlruns"],
        dict_update {[ _TRACKING_URI_ENV_VAR :=
                         path_to_local_file_uri "/mlflow/tmp/mlruns" ]}
                    (get_databricks_env_vars uri)).
Proof.
  intros Hne Hslash Hplain _.
  assert (urlparse uri = Ok (mkParseResult "" "" uri "" "" "")) as Hparse.
  { unfold urlparse, urlsplit, split_scheme, Py.split1.
    rewrite (proj1 (find_None_contains ":" uri)) by (apply Hplain; set_solver).
    rewrite string_eqb_decide, bool_decide_eq_false_2 by done. simpl.
    rewrite (proj1 (find_None_contains "#" uri)) by (apply Hplain; set_solver).
    simpl.
    rewrite (proj1 (find_None_contains "?" uri)) by (apply Hplain; set_solver).
    simpl.
    by rewrite (Hplain ";"%char) by set_solver. }
  unfold get_docker_tracking_cmd_and_envs.
  rewrite (get_local_uri_local uri _ Hne Hparse); [|done|set_solver].
  simpl. unfold url2pathname, unquote.
  by rewrite (Hplain "%"%char) by set_solver.
Qed.

(** *** What a call does to the filesystem *)

Lemma prefix_comparable (p q r : fspath) :
  p `prefix_of` r → q `prefix_of` r → p `prefix_of` q ∨ q `prefix_of` p.
Proof.
  revert q r. induction p as [|x p IH]; intros q r Hp Hq.
  { left. apply prefix_nil. }
  destruct q as [|y q]; [right; apply prefix_nil|].
  destruct r as [|z r]; [by apply prefix_nil_not in Hp|].
  pose proof (prefix_cons_inv_1 _ _ _ _ Hp) as ->.
  pose proof (prefix_cons_inv_1 _ _ _ _ Hq) as ->.
  apply prefix_cons_inv_2 in Hp, Hq.
  destruct (IH q r Hp Hq); [left|right]; by apply prefix_cons.
Qed.

Lemma diverge_app_r q d r : diverge q d → diverge q (d ++ r).
Proof.
  intros [H1 H2]. split.
  - intros Hpre.
    destruct (prefix_comparable q d (d ++ r)) as [?|?];
      [done|by apply prefix_app_r|done|done].
  - intros Hpre. apply H2. etrans; [|done]. by apply prefix_app_r.
Qed.

Lemma put_lookup_under parents now q r new n n' sub :
  FS.lookup q n = Some sub →
  r ≠ [] →
  FS.put parents now (q ++ r) new n = Some n' →
  ∃ sub', FS.put parents now r new sub = Some sub' ∧ FS.lookup q n' = Some sub'.
Proof.
  revert n n'. induction q as [|y q IH]; intros n n' Hq Hr Hput.
  - rewrite lookup_nil in Hq. simplify_eq. exists n'. by rewrite lookup_nil.
  - destruct n as [t0 d0|t0 es0]; [done|]. rewrite lookup_cons in Hq.
    destruct (es0 !! y) as [child|] eqn:Hy; [|done]. simpl in Hq.
    rewrite <-app_comm_cons in Hput.
    destruct (q ++ r) as [|z l] eqn:Hql.
    { apply app_eq_nil in Hql as [_ ->]. done. }
    rewrite put_cons, Hy in Hput.
    destruct (FS.put parents now (z :: l) new child) as [child'|] eqn:Hchild;
      simplify_eq/=.
    destruct (IH child child' Hq Hr Hchild) as (sub' & Hsub & Hlook).
    exists sub'. split; [done|].
    by rewrite lookup_cons, lookup_insert_eq.
Qed.

Lemma remove_lookup_under now q r n n' sub :
  FS.lookup q n = Some sub →
  r ≠ [] →
  FS.remove now (q ++ r) n = Some n' →
  ∃ sub', FS.remove now r sub = Some sub' ∧ FS.lookup q n' = Some sub'.
Proof.
  revert n n'. induction q as [|y q IH]; intros n n' Hq Hr Hrm.
  - rewrite lookup_nil in Hq. simplify_eq. exists n'. by rewrite lookup_nil.
  - destruct n as [t0 d0|t0 es0]; [done|]. rewrite lookup_cons in Hq.
    destruct (es0 !! y) as [child|] eqn:Hy; [|done]. simpl in Hq.
    rewrite <-app_comm_cons in Hrm.
    destruct (q ++ r) as [|z l] eqn:Hql.
    { apply app_eq_nil in Hql as [_ ->]. done. }
    rewrite remove_cons, Hy in Hrm. simpl in Hrm.
    destruct (FS.remove now (z :: l) child) as [child'|] eqn:Hchild;
      simplify_eq/=.
    destruct (IH child child' Hq Hr Hchild) as (sub' & Hsub & Hlook).
    exists sub'. split; [done|].
    by rewrite lookup_cons, lookup_insert_eq.
Qed.

Lemma put_entries parents now x r new t es n' :
  FS.put parents now (x :: r) new (Dir t es) = Some n' →
  ∃ t' c, n' = Dir t' (<[x:=c]> es) ∧ (r = [] → c = new).
Proof.
  intros Hput. destruct r as [|y r].
  - rewrite put_single in Hput. simplify_eq. eauto.
  - rewrite put_cons in Hput. destruct (es !! x) as [child|].
    + destruct (FS.put _ _ _ _ child); simplify_eq/=. by eexists _, _.
    + destruct parents; [|done].
      destruct (FS.put _ _ _ _ _); simplify_eq/=. by eexists _, _.
Qed.

Lemma put_entry_parent_dir now q x new n n' :
  FS.put false now (q ++ [x]) new n = Some n' →
  ∃ t es, FS.lookup q n = Some (Dir t es).
Proof.
  revert n n'. induction q as [|y q IH]; intros n n' Hput.
  - destruct n as [t d|t es]; [done|]. rewrite lookup_nil. eauto.
  - destruct n as [t0 d0|t0 es0]; [done|].
    rewrite <-app_comm_cons in Hput.
    destruct (q ++ [x]) as [|z l] eqn:Hql; [by destruct q|].
    rewrite put_cons in Hput. rewrite lookup_cons.
    destruct (es0 !! y) as [child|]; [|done].
    destruct (FS.put false now (z :: l) new child) as [child'|] eqn:Hchild;
      simplify_eq/=.
    by apply (IH child child').
Qed.

Lemma mktemp_loop_keeps fresh names w r w' :
  mktemp_loop fresh names w = (r, w') →
  tempdir w' = tempdir w ∧ tags w' = tags w ∧ log w' = log w
  ∧ (fs w' = fs w
     ∨ ∃ name, FS.put false (clock w) (tempdir w ++ [name]) (fresh (clock w)) (fs w)
               = Some (fs w')).
Proof.
  induction names as [|name rest IH]; simpl; intros Hloop.
  { simplify_eq. simpl. auto. }
  destruct (FS.lookup (tempdir w ++ _) (fs w)) as [?|] eqn:Hfree; [by apply IH|].
  destruct (FS.put false (clock w) (tempdir w ++ _) _ (fs w)) as [root|] eqn:Hput;
    simplify_eq; simpl; split_and!; eauto.
Qed.

(** The steps of a successful call on the host without faults, with the
    trees they leave. *)
Lemma build_ctx_trace work_dir dockerfile_contents w result_path w' :
  _create_docker_build_ctx (host := Posix.host) work_dir dockerfile_contents w
    = (Ok result_path, w') →
  ∃ name1 name2 t es root1 root2 root3 root4 root5 now1 now2 now3 now4 now5 tree,
    let directory := tempdir w ++ [name1] in
    let dst_path := directory ++ [staging_subdirectory] in
    result_path = tempdir w ++ [name2]
    ∧ name1 ≠ name2
    ∧ FS.lookup directory (fs w) = None
    ∧ FS.put false (clock w) directory (Dir (clock w) ∅) (fs w) = Some root1
    ∧ FS.lookup work_dir root1 = Some (Dir t es)
    ∧ ¬ work_dir `prefix_of` dst_path
    ∧ FS.put true now1 dst_path (Dir t es) root1 = Some root2
    ∧ FS.put false now2 (dst_path ++ [_GENERATED_DOCKERFILE_NAME])
        (File now2 (Bytes dockerfile_contents)) root2 = Some root3
    ∧ FS.lookup result_path root3 = None
    ∧ FS.put false now3 result_path (File now3 (Bytes "")) root3 = Some root4
    ∧ FS.lookup dst_path root4 = Some tree
    ∧ FS.put false now4 result_path
        (File now4 (TarGz _PROJECT_TAR_ARCHIVE_NAME tree)) root4 = Some root5
    ∧ FS.remove now5 directory root5 = Some (fs w')
    ∧ tempdir w' = tempdir w ∧ tags w' = tags w ∧ log w' = log w.
Proof.
  intros Hrun. unfold _create_docker_build_ctx in Hrun.
  apply bind_Ok in Hrun as (directory & w1 & Hmk & Hrun).
  apply try_finally_Ok in Hrun as (w5 & u & Hbody & Hrm).
  apply bind_Ok in Hbody as (u2 & w2 & Hcopy & Hbody).
  apply bind_Ok in Hbody as (u3 & w3 & Hwrite & Hbody).
  apply bind_Ok in Hbody as (result_path' & w4 & Hmks & Hbody).
  apply bind_Ok in Hbody as (u5 & w5' & Htar & Hret).
  unfold ret in Hret. simplify_eq.
  pose proof (mktemp_loop_keeps _ _ _ _ _ Hmk) as (_ & Htags1 & Hlog1 & _).
  pose proof (mktemp_loop_keeps _ _ _ _ _ Hmks) as (_ & Htags4 & Hlog4 & _).
  apply mktemp_loop_Ok in Hmk
    as (name1 & root1 & Hdir & Hfree1 & Hput1 & <- & Htmp1).
  apply copytree_Ok in Hcopy as (t & es & root2 & Hsrc & Hnotin & Hput2 & ->).
  apply write_file_Ok in Hwrite as (root3 & Hput3 & ->).
  apply mktemp_loop_Ok in Hmks
    as (name2 & root4 & Hres & Hfree2 & Hput4 & <- & Htmp4).
  simpl in *.
  unfold Posix.make_tarfile in Htar.
  destruct (FS.lookup (directory ++ [staging_subdirectory]) (fs w4))
    as [tree|] eqn:Htree; [|done].
  apply write_file_Ok in Htar as (root5 & Hput5 & ->).
  apply rmtree_Ok in Hrm as (root6 & Hrm & ->). simpl in *.
  assert (name1 ≠ name2) as Hnames.
  { intros ->. rewrite Htmp1, <-Hdir in Hres. subst result_path.
    pose proof (put_lookup _ _ _ _ _ _ Hput3) as Hmanifest.
    rewrite <-app_assoc in Hmanifest.
    by rewrite (lookup_prefix_None directory _ root3) in Hmanifest
      by (by apply prefix_app_r || done). }
  rewrite Htmp1 in Hres. subst directory result_path.
  exists name1, name2, t, es, (fs w1), root2, root3, (fs w4), root5.
  eexists _, _, _, _, _, tree. simpl.
  split_and!; try done; congruence.
Qed.

(** X7. A successful call on the host without faults leaves the working
    directory as it was: the tree stored there is the same after the call
    as before it. *)
Theorem working_directory_untouched work_dir dockerfile_contents w result_path w' :
  _create_docker_build_ctx (host := Posix.host) work_dir dockerfile_contents w
    = (Ok result_path, w') →
  FS.lookup work_dir (fs w') = FS.lookup work_dir (fs w).
Proof.
  intros Hrun.
  destruct (build_ctx_trace _ _ _ _ _ Hrun)
    as (name1 & name2 & t & es & root1 & root2 & root3 & root4 & root5
        & now1 & now2 & now3 & now4 & now5 & tree & Htrace).
  simpl in Htrace.
  destruct Htrace as (-> & Hnames & Hfree1 & Hput1 & Hsrc & Hnotin & Hput2
                      & Hput3 & Hfree2 & Hput4 & Htree & Hput5 & Hrm & _).
  set (directory := tempdir w ++ [name1]) in *.
  set (result_path := tempdir w ++ [name2]) in *.
  assert (diverge work_dir directory) as Hdiv_dir.
  { split.
    - intros Hpre. apply Hnotin. etrans; [done|]. by apply prefix_app_r.
    - intros [r ->].
      rewrite lookup_app, (put_lookup _ _ _ _ _ _ Hput1) in Hsrc.
      simpl in Hsrc. destruct r as [|x r].
      + apply Hnotin. rewrite app_nil_r. by apply prefix_app_r.
      + by rewrite lookup_empty_dir in Hsrc. }
  pose proof (diverge_app_r _ _ [staging_subdirectory] Hdiv_dir) as Hdiv_dst.
  pose proof (diverge_app_r _ _ [_GENERATED_DOCKERFILE_NAME] Hdiv_dst) as Hdiv_manifest.
  assert (FS.lookup work_dir root3 = Some (Dir t es)) as Hsrc3.
  { rewrite (put_lookup_diverge _ _ _ _ _ _ _ Hdiv_manifest Hput3).
    by rewrite (put_lookup_diverge _ _ _ _ _ _ _ Hdiv_dst Hput2). }
  assert (diverge work_dir result_path) as Hdiv_res.
  { split.
    - intros [Hpre| ->]%prefix_snoc_inv; [|unfold result_path in Hfree2; congruence].
      destruct Hdiv_dir as [Hdir _]. apply Hdir. by apply prefix_app_r.
    - intros Hpre. by rewrite (lookup_prefix_None _ _ _ Hpre Hfree2) in Hsrc3. }
  rewrite (remove_lookup_diverge _ _ _ _ _ Hdiv_dir Hrm).
  rewrite (put_lookup_diverge _ _ _ _ _ _ _ Hdiv_res Hput5).
  rewrite (put_lookup_diverge _ _ _ _ _ _ _ Hdiv_res Hput4).
  rewrite Hsrc3, <-Hsrc.
  by apply (put_lookup_diverge _ _ _ _ _ _ _ Hdiv_dir Hput1).
Qed.

Lemma put_under_dir parents now q x r new n n' t es :
  FS.lookup q n = Some (Dir t es) →
  FS.put parents now (q ++ x :: r) new n = Some n' →
  ∃ t' c, FS.lookup q n' = Some (Dir t' (<[x:=c]> es)) ∧ (r = [] → c = new).
Proof.
  intros Hq Hput.
  assert (x :: r ≠ []) as Hne by done.
  destruct (put_lookup_under _ _ _ _ _ _ _ _ Hq Hne Hput)
    as (sub' & Hsub & Hlook).
  destruct (put_entries _ _ _ _ _ _ _ _ Hsub) as (t' & c & -> & Hc).
  by exists t', c.
Qed.

(** The temporary directory, the tags and the log after a successful call. *)
Lemma build_ctx_effect
    work_dir dockerfile_contents w result_path w' :
  _create_docker_build_ctx (host := Posix.host) work_dir dockerfile_contents w
    = (Ok result_path, w') →
  ∃ tmp_mtime tmp_entries name tmp_mtime' archive_mtime tree,
    FS.lookup (tempdir w) (fs w) = Some (Dir tmp_mtime tmp_entries)
    ∧ result_path = tempdir w ++ [name]
    ∧ tmp_entries !! name = None
    ∧ FS.lookup (tempdir w) (fs w') =
        Some (Dir tmp_mtime'
                (<[name := File archive_mtime
                             (TarGz "mlflow-project-docker-build-context" tree)]>
                   tmp_entries))
    ∧ tempdir w' = tempdir w ∧ tags w' = tags w ∧ log w' = log w.
Proof.
  intros Hrun.
  destruct (build_ctx_trace _ _ _ _ _ Hrun)
    as (name1 & name2 & t & es & root1 & root2 & root3 & root4 & root5
        & now1 & now2 & now3 & now4 & now5 & tree & Htrace).
  simpl in Htrace.
  destruct Htrace as (-> & Hnames & Hfree1 & Hput1 & Hsrc & Hnotin & Hput2
                      & Hput3 & Hfree2 & Hput4 & Htree & Hput5 & Hrm
                      & Htmp' & Htags & Hlog).
  destruct (put_entry_parent_dir _ _ _ _ _ _ Hput1) as (tt & et & Htmp).
  assert (et !! name1 = None) as Hname1.
  { rewrite lookup_app, Htmp in Hfree1. simpl in Hfree1.
    by rewrite lookup_entry in Hfree1. }
  repeat (rewrite <-app_assoc in Hput2; simpl in Hput2).
  repeat (rewrite <-app_assoc in Hput3; simpl in Hput3).
  destruct (put_under_dir _ _ _ _ _ _ _ _ _ _ Htmp Hput1) as (t1 & c1 & Htmp1 & _).
  destruct (put_under_dir _ _ _ _ _ _ _ _ _ _ Htmp1 Hput2) as (t2 & c2 & Htmp2 & _).
  destruct (put_under_dir _ _ _ _ _ _ _ _ _ _ Htmp2 Hput3) as (t3 & c3 & Htmp3 & _).
  assert (et !! name2 = None) as Hname2.
  { rewrite lookup_app, Htmp3 in Hfree2. simpl in Hfree2.
    rewrite lookup_entry in Hfree2. by rewrite !lookup_insert_ne in Hfree2. }
  destruct (put_under_dir _ _ _ _ _ _ _ _ _ _ Htmp3 Hput4) as (t4 & c4 & Htmp4 & _).
  destruct (put_under_dir _ _ _ _ _ _ _ _ _ _ Htmp4 Hput5) as (t5 & c5 & Htmp5 & Hc5).
  rewrite Hc5 in Htmp5 by done.
  assert ([name1] ≠ []) as Hne by done.
  destruct (remove_lookup_under _ _ _ _ _ _ Htmp5 Hne Hrm)
    as (sub6 & Hsub6 & Htmp6).
  rewrite remove_single in Hsub6.
  rewrite lookup_insert_ne, lookup_insert_ne, lookup_insert_eq in Hsub6 by done.
  simplify_eq.
  exists tt, et, name2, now5, now4, tree.
  split_and!; [done|done|done| |done|done|done].
  rewrite Htmp6. do 2 f_equal.
  apply map_eq. intros k.
  destruct (decide (k = name1)) as [Hk1|Hk1];
    destruct (decide (k = name2)) as [Hk2|Hk2]; subst; by simplify_map_eq.
Qed.

(** X8. After a successful call on the host without faults the temporary
    directory holds what it held before and one more entry, the archive
    under a name that was free: nothing of the staging directory is left
    there. *)
Theorem temporary_directory_gains_only_archive
    work_dir dockerfile_contents w result_path w' :
  _create_docker_build_ctx (host := Posix.host) work_dir dockerfile_contents w
    = (Ok result_path, w') →
  ∃ tmp_mtime tmp_entries name tmp_mtime' archive_mtime tree,
    FS.lookup (tempdir w) (fs w) = Some (Dir tmp_mtime tmp_entries)
    ∧ result_path = tempdir w ++ [name]
    ∧ tmp_entries !! name = None
    ∧ FS.lookup (tempdir w) (fs w') =
        Some (Dir tmp_mtime'
                (<[name := File archive_mtime
                             (TarGz "mlflow-project-docker-build-context" tree)]>
                   tmp_entries)).
Proof.
  intros Hrun.
  destruct (build_ctx_effect _ _ _ _ _ Hrun)
    as (tmp_mtime & tmp_entries & name & tmp_mtime' & archive_mtime & tree
        & Hbefore & Hpath & Hfree & Hafter & _).
  exists tmp_mtime, tmp_entries, name, tmp_mtime', archive_mtime, tree.
  by split_and!.
Qed.

Lemma build_ctx_any_engine engine work_dir dockerfile_contents :
  _create_docker_build_ctx (host := Posix.host_with_engine engine)
    work_dir dockerfile_contents
  = _create_docker_build_ctx (host := Posix.host) work_dir dockerfile_contents.
Proof. reflexivity. Qed.


(** *** What a call leaves alone, whatever its outcome *)

Lemma keeps_outside_refl tmp w : keeps_outside tmp w w.
Proof. by intros Htmp. Qed.

Lemma keeps_outside_trans tmp w1 w2 w3 :
  keeps_outside tmp w1 w2 → keeps_outside tmp w2 w3 → keeps_outside tmp w1 w3.
Proof.
  intros H12 H23 Htmp. destruct (H12 Htmp) as [Htmp2 Hq2].
  destruct (H23 Htmp2) as [Htmp3 Hq3]. split; [done|].
  intros q Hq. by rewrite Hq3, Hq2.
Qed.

Lemma keeps_outside_put tmp parents now r new w root :
  FS.put parents now (tmp ++ r) new (fs w) = Some root →
  keeps_outside tmp w (set_fs root w).
Proof.
  intros Hput Htmp. split; [done|]. intros q Hq. simpl.
  by apply (put_lookup_diverge _ _ _ _ _ _ _ (diverge_app_r _ _ r Hq) Hput).
Qed.

Lemma keeps_outside_remove tmp now r w root :
  FS.remove now (tmp ++ r) (fs w) = Some root →
  keeps_outside tmp w (set_fs root w).
Proof.
  intros Hrm Htmp. split; [done|]. intros q Hq. simpl.
  by apply (remove_lookup_diverge _ _ _ _ _ (diverge_app_r _ _ r Hq) Hrm).
Qed.

Lemma keeps_outside_mktemp tmp fresh names w r w' :
  mktemp_loop fresh names w = (r, w') → keeps_outside tmp w w'.
Proof.
  intros Hloop Htmp.
  destruct (mktemp_loop_keeps _ _ _ _ _ Hloop) as (Htmp' & _ & _ & Hfs).
  split; [congruence|]. intros q Hq.
  destruct Hfs as [->|[name Hput]]; [done|]. rewrite Htmp in Hput.
  by apply (put_lookup_diverge _ _ _ _ _ _ _ (diverge_app_r _ _ [name] Hq) Hput).
Qed.

Lemma keeps_outside_copytree tmp src r w res w' :
  Posix.copytree src (tmp ++ r) w = (res, w') → keeps_outside tmp w w'.
Proof.
  unfold Posix.copytree. intros Hcopy.
  destruct (FS.lookup src (fs w)) as [[t d|t es]|];
    [simplify_eq; apply keeps_outside_refl| |simplify_eq; apply keeps_outside_refl].
  destruct (FS.lookup (tmp ++ r) (fs w));
    [simplify_eq; apply keeps_outside_refl|].
  case_bool_decide; [simplify_eq; apply keeps_outside_refl|].
  destruct (FS.put true _ (tmp ++ r) _ _) as [root|] eqn:Hput;
    simplify_eq; [by eapply keeps_outside_put|apply keeps_outside_refl].
Qed.

Lemma keeps_outside_write_file tmp r data w res w' :
  Posix.write_file (tmp ++ r) data w = (res, w') → keeps_outside tmp w w'.
Proof.
  unfold Posix.write_file. intros Hwrite.
  destruct (FS.put false _ (tmp ++ r) _ _) as [root|] eqn:Hput;
    destruct (FS.lookup (tmp ++ r) (fs w)) as [[t d|t es]|]; simplify_eq;
    first [apply keeps_outside_refl|by eapply keeps_outside_put].
Qed.

Lemma keeps_outside_make_tarfile tmp r source_dir archive_name w res w' :
  Posix.make_tarfile (tmp ++ r) source_dir archive_name w = (res, w') →
  keeps_outside tmp w w'.
Proof.
  unfold Posix.make_tarfile. intros Htar.
  destruct (FS.lookup source_dir (fs w));
    [by eapply keeps_outside_write_file|simplify_eq; apply keeps_outside_refl].
Qed.

Lemma keeps_outside_rmtree tmp r w res w' :
  Posix.rmtree (tmp ++ r) w = (res, w') → keeps_outside tmp w w'.
Proof.
  unfold Posix.rmtree. intros Hrm.
  destruct (FS.lookup (tmp ++ r) (fs w)) as [[t d|t es]|];
    [simplify_eq; apply keeps_outside_refl| |simplify_eq; apply keeps_outside_refl].
  destruct (FS.remove _ (tmp ++ r) _) as [root|] eqn:Hremove;
    simplify_eq; [by eapply keeps_outside_remove|apply keeps_outside_refl].
Qed.

Lemma keeps_outside_bind tmp {A B} (m : M A) (k : A → M B) w r w' :
  bind m k w = (r, w') →
  (∀ r1 w1, m w = (r1, w1) → keeps_outside tmp w w1) →
  (∀ a w1, m w = (Ok a, w1) → k a w1 = (r, w') → keeps_outside tmp w1 w') →
  keeps_outside tmp w w'.
Proof.
  unfold bind. intros Hbind Hm Hk.
  destruct (m w) as [[a|e] w1] eqn:Hmw.
  - eapply keeps_outside_trans; [by eapply Hm|by eapply Hk].
  - simplify_eq. by eapply Hm.
Qed.

Lemma keeps_outside_try_finally tmp {A} (body : M A) (cleanup : M unit) w r w' :
  try_finally body cleanup w = (r, w') →
  (∀ r1 w1, body w = (r1, w1) → keeps_outside tmp w w1) →
  (∀ r1 w1 r2, body w = (r1, w1) → cleanup w1 = (r2, w') → keeps_outside tmp w1 w') →
  keeps_outside tmp w w'.
Proof.
  unfold try_finally. intros Hfin Hbody Hcleanup.
  destruct (body w) as [r1 w1] eqn:Hb.
  destruct (cleanup w1) as [[u|e] w2] eqn:Hc; simplify_eq;
    (eapply keeps_outside_trans; [by eapply Hbody|by eapply Hcleanup]).
Qed.

Lemma build_ctx_keeps_outside work_dir dockerfile_contents w r w' :
  _create_docker_build_ctx (host := Posix.host) work_dir dockerfile_contents w
    = (r, w') →
  keeps_outside (tempdir w) w w'.
Proof.
  unfold _create_docker_build_ctx. intros Hrun.
  eapply keeps_outside_bind; [exact Hrun|intros; by eapply keeps_outside_mktemp|].
  clear Hrun. intros directory w1 Hmk Hrun.
  apply mktemp_loop_Ok in Hmk as (name & root & -> & _).
  repeat rewrite <-app_assoc in Hrun. simpl in Hrun.
  eapply keeps_outside_try_finally; [exact Hrun| |].
  - clear Hrun. intros r1 w5 Hbody.
    eapply keeps_outside_bind;
      [exact Hbody|intros; by eapply keeps_outside_copytree|].
    clear Hbody. intros u2 w2 _ Hbody.
    eapply keeps_outside_bind;
      [exact Hbody|intros; by eapply keeps_outside_write_file|].
    clear Hbody. intros u3 w3 _ Hbody.
    eapply keeps_outside_bind;
      [exact Hbody|intros; by eapply keeps_outside_mktemp|].
    clear Hbody. intros result_path w4 Hmks Hbody.
    eapply keeps_outside_bind; [exact Hbody| |].
    + intros r4 w5' Htar Htmp.
      apply mktemp_loop_Ok in Hmks as (name2 & root4 & -> & _ & _ & _ & Htmp4).
      rewrite <-Htmp4, Htmp in Htar.
      by eapply keeps_outside_make_tarfile.
    + intros u5 w5' _ Hret. unfold ret in Hret. simplify_eq.
      apply keeps_outside_refl.
  - intros r1 w5 r2 _ Hrm. by eapply keeps_outside_rmtree.
Qed.

(** X10. On the host without faults a call changes nothing outside the
    temporary directory, whether it returns or raises: every path that
    neither leads to the temporary directory nor lies in it leads to the
    same node after the call as before it. *)
Theorem outside_temporary_directory_untouched work_dir dockerfile_contents w q :
  diverge q (tempdir w) →
  FS.lookup q
    (fs (_create_docker_build_ctx (host := Posix.host)
           work_dir dockerfile_contents w).2)
  = FS.lookup q (fs w).
Proof.
  intros Hq.
  destruct (_create_docker_build_ctx work_dir dockerfile_contents w)
    as [r w'] eqn:Hrun.
  destruct (build_ctx_keeps_outside _ _ _ _ _ Hrun eq_refl) as [_ Hkeep].
  by apply Hkeep.
Qed.

(** *** [build_docker_image] *)

Lemma try_except_Ok body handler w u w' :
  try_except body handler w = (Ok u, w') →
  body w = (Ok (), w') ∨ ∃ e w1, body w = (Raise e, w1) ∧ handler e w1 = (Ok u, w').
Proof.
  unfold try_except. destruct (body w) as [[[]|e] w1]; [|by eauto].
  intros [= <- <-]. by left.
Qed.

(** X11. An image that [build_docker_image] returns has been tagged: on
    every host, when the call returns an image, the last two tags the
    tracking client received are the image URI and the identifier of that
    image, in this order, under the given run. *)
Theorem returned_image_is_tagged {host : Host}
    work_dir repository_uri base_image run_id w image w' :
  build_docker_image work_dir repository_uri base_image run_id w = (Ok image, w') →
  ∃ earlier,
    tags w' = earlier ++ [(run_id, MLFLOW_DOCKER_IMAGE_URI,
                           _get_docker_image_uri repository_uri work_dir);
                          (run_id, MLFLOW_DOCKER_IMAGE_ID, image_id image)].
Proof.
  unfold build_docker_image. intros Hrun.
  apply bind_Ok in Hrun as (build_ctx_path & w1 & _ & Hrun).
  apply bind_Ok in Hrun as (image' & w2 & _ & Hrun).
  apply bind_Ok in Hrun as (u & w3 & _ & Hrun).
  unfold bind, set_tag, ret in Hrun. simpl in Hrun. simplify_eq. simpl.
  exists (tags w3). by rewrite <-app_assoc.
Qed.

(** X12. When the container engine raises, [build_docker_image] raises the
    same exception and does nothing more: on the fault-free file
    operations, with an engine that refuses every build and leaves the
    world as it found it, the archive stays in the temporary directory
    and the tracking client receives no tag. *)
Theorem archive_left_when_engine_raises engine e
    work_dir repository_uri base_image run_id w build_ctx_path w1 :
  (∀ tag dockerfile fileobj w0, engine tag dockerfile fileobj w0 = (Raise e, w0)) →
  _create_docker_build_ctx (host := Posix.host_with_engine engine)
    work_dir (dockerfile_text base_image) w = (Ok build_ctx_path, w1) →
  ∃ w' mtime tree,
    build_docker_image (host := Posix.host_with_engine engine)
      work_dir repository_uri base_image run_id w = (Raise e, w')
    ∧ FS.lookup build_ctx_path (fs w') =
        Some (File mtime (TarGz "mlflow-project-docker-build-context" tree))
    ∧ tags w' = tags w.
Proof.
  intros Hengine Hctx.
  pose proof Hctx as Hrun. rewrite build_ctx_any_engine in Hrun.
  destruct (build_ctx_archive _ _ _ _ _ Hrun)
    as (t & es & archive_mtime & root_mtime & manifest_mtime & Hsrc & Harchive).
  destruct (build_ctx_trace _ _ _ _ _ Hrun)
    as (? & ? & ? & ? & ? & ? & ? & ? & ? & ? & ? & ? & ? & ? & ? & Htrace).
  simpl in Htrace.
  destruct Htrace as (_ & _ & _ & _ & _ & _ & _ & _ & _ & _ & _ & _ & _ & _ & Htags & _).
  eexists _, archive_mtime, _. split_and!.
  - unfold build_docker_image, bind. rewrite Hctx.
    unfold build_from_context, bind. simpl. unfold Posix.open_rb.
    rewrite Harchive. simpl. rewrite Hengine. reflexivity.
  - simpl. exact Harchive.
  - simpl. exact Htags.
Qed.

Lemma os_remove_file path w mtime data :
  path ≠ [] →
  FS.lookup path (fs w) = Some (File mtime data) →
  ∃ root, FS.remove (clock w) path (fs w) = Some root
          ∧ Posix.os_remove path w = (Ok (), set_fs root w).
Proof.
  intros Hne Hfile. unfold Posix.os_remove. rewrite Hfile.
  destruct (remove_is_Some (clock w) path (fs w)) as [root Hroot];
    [done|by rewrite Hfile|].
  exists root. by rewrite Hroot.
Qed.

(** X13. On the fault-free file operations, with an engine that leaves the
    world as it found it, a build that returns an image leaves no
    temporary file: the temporary directory holds the entries it held
    before the call, the archive is gone, the tracking client has
    received the two tags and nothing else, and the log holds the one line
    that announces the build. *)
Theorem build_leaves_temporary_directory_clean engine
    work_dir repository_uri base_image run_id w image w' :
  (∀ tag dockerfile fileobj w0 r w0',
     engine tag dockerfile fileobj w0 = (r, w0') → w0' = w0) →
  build_docker_image (host := Posix.host_with_engine engine)
    work_dir repository_uri base_image run_id w = (Ok image, w') →
  let image_uri := _get_docker_image_uri repository_uri work_dir in
  ∃ tmp_mtime tmp_entries tmp_mtime',
    FS.lookup (tempdir w) (fs w) = Some (Dir tmp_mtime tmp_entries)
    ∧ FS.lookup (tempdir w) (fs w') = Some (Dir tmp_mtime' tmp_entries)
    ∧ tags w' = tags w ++ [(run_id, MLFLOW_DOCKER_IMAGE_URI, image_uri);
                           (run_id, MLFLOW_DOCKER_IMAGE_ID, image_id image)]
    ∧ log w' = log w ++ ["=== Building docker image " +:+ image_uri +:+ " ==="].
Proof.
  intros Hengine Hrun image_uri. unfold build_docker_image in Hrun.
  fold image_uri in Hrun.
  apply bind_Ok in Hrun as (build_ctx_path & w1 & Hctx & Hrun).
  apply bind_Ok in Hrun as (image' & w2 & Hbuild & Hrun).
  apply bind_Ok in Hrun as (u & w3 & Hremove & Hrun).
  unfold bind, set_tag, ret in Hrun. simpl in Hrun. simplify_eq.
  rewrite build_ctx_any_engine in Hctx.
  destruct (build_ctx_effect _ _ _ _ _ Hctx)
    as (tmp_mtime & tmp_entries & name & tmp_mtime1 & archive_mtime & tree
        & Hbefore & -> & Hfree & Hafter & Htmp1 & Htags1 & Hlog1).
  assert (FS.lookup (tempdir w ++ [name]) (fs w1)
          = Some (File archive_mtime
                    (TarGz "mlflow-project-docker-build-context" tree)))
    as Harchive.
  { rewrite lookup_app, Hafter. simpl. rewrite lookup_entry.
    apply lookup_insert_eq. }
  (* the with block *)
  unfold build_from_context, bind in Hbuild. simpl in Hbuild.
  unfold Posix.open_rb in Hbuild. rewrite Harchive in Hbuild. simpl in Hbuild.
  pose proof (Hengine _ _ _ _ _ _ Hbuild) as ->.
  (* the removal of the archive *)
  destruct (os_remove_file (tempdir w ++ [name])
              (mkWorld (fs w1) (tempdir w1) (candidate_names w1) (clock w1)
                 (tags w1)
                 (log w1 ++ ["=== Building docker image " +:+ image_uri +:+ " ==="]))
              archive_mtime _ ltac:(by destruct (tempdir w)) Harchive)
    as (root & Hroot & Hos_remove).
  unfold try_except in Hremove. simpl in Hremove, Hos_remove.
  rewrite Hos_remove in Hremove. simplify_eq. simpl in *.
  assert ([name] ≠ []) as Hne by done.
  destruct (remove_lookup_under _ _ _ _ _ _ Hafter Hne Hroot)
    as (sub & Hsub & Htmp3).
  rewrite remove_single, lookup_insert_eq in Hsub. simplify_eq.
  exists tmp_mtime, tmp_entries, (clock w1).
  split_and!; [done| |by rewrite Htags1, <-app_assoc|by rewrite Hlog1].
  rewrite Htmp3. do 2 f_equal.
  apply map_eq. intros k.
  destruct (decide (k = name)) as [->|Hk]; by simplify_map_eq.
Qed.

Lemma through_file_iff p n :
  FS.through_file p n = true
  ↔ ∃ q r t d, p = q ++ r ∧ r ≠ [] ∧ FS.lookup q n = Some (File t d).
Proof.
  revert n. induction p as [|x p IH]; intros n; simpl.
  - split; [done|]. intros (q & r & t & d & Hp & Hr & _).
    symmetry in Hp. by apply app_eq_nil in Hp as [_ ->].
  - destruct n as [t d|t es].
    + split; [|done]. intros _. by exists [], (x :: p), t, d.
    + split.
      * destruct (es !! x) as [child|] eqn:Hx; [|done].
        intros (q & r & t' & d & -> & Hr & Hq)%IH.
        exists (x :: q), r, t', d. split_and!; [done..|].
        by rewrite lookup_cons, Hx.
      * intros (q & r & t' & d & Hp & Hr & Hq).
        destruct q as [|y q]; [by rewrite lookup_nil in Hq|].
        simpl in Hp. injection Hp as <- ->.
        rewrite lookup_cons in Hq.
        destruct (es !! x) as [child|]; [|done]. simpl in Hq.
        apply IH. by exists q, r, t', d.
Qed.

(** A new entry of a directory makes no path lead to a regular file that
    did not before, and takes no regular file away. *)
Lemma put_entry_same_files now tmp x new_t root root1 t es q t' d :
  FS.lookup tmp root = Some (Dir t es) →
  es !! x = None →
  FS.put false now (tmp ++ [x]) (Dir new_t ∅) root = Some root1 →
  FS.lookup q root1 = Some (File t' d) ↔ FS.lookup q root = Some (File t' d).
Proof.
  intros Htmp Hx Hput.
  assert (FS.lookup (tmp ++ [x]) root = None) as Hdir0.
  { rewrite lookup_app, Htmp. simpl. by rewrite lookup_entry. }
  pose proof (put_lookup _ _ _ _ _ _ Hput) as Hdir1.
  destruct (put_under_dir _ _ _ _ _ _ _ _ _ _ Htmp Hput) as (t1 & c1 & Htmp1 & _).
  destruct (decide ((tmp ++ [x]) `prefix_of` q)) as [[r ->]|Hnotunder].
  - rewrite (lookup_app (tmp ++ [x]) r root), (lookup_app (tmp ++ [x]) r root1),
      Hdir0, Hdir1. simpl.
    destruct r as [|y r]; [by rewrite lookup_nil|].
    by rewrite lookup_empty_dir.
  - destruct (decide (q `prefix_of` tmp ++ [x])) as [Hpre|Hnotover].
    + apply prefix_snoc_inv in Hpre as [[r Hq]|Hq];
        [|subst q; by rewrite Hdir0, Hdir1].
      subst tmp. destruct r as [|y r].
      * rewrite app_nil_r in Htmp, Htmp1. by rewrite Htmp, Htmp1.
      * destruct (lookup_app_Some_dir _ _ _ _ _ Htmp) as (? & ? & ->).
        by destruct (lookup_app_Some_dir _ _ _ _ _ Htmp1) as (? & ? & ->).
    + by rewrite (put_lookup_diverge _ _ _ _ _ _ _ (conj Hnotover Hnotunder) Hput).
Qed.

(** X15. A working directory that does not exist makes the call raise on
    the host without faults what [os.scandir] raises for it:
    [NotADirectoryError] when its path runs through a regular file,
    [FileNotFoundError] otherwise. The temporary directory then holds the
    entries it held before: the staging directory is created, the copy
    fails, the staging directory is removed. The working directory must
    not be the very path that the staging directory is about to get. *)
Theorem missing_working_directory_raises work_dir dockerfile_contents w
    tmp_mtime tmp_entries name rest :
  FS.lookup work_dir (fs w) = None →
  FS.lookup (tempdir w) (fs w) = Some (Dir tmp_mtime tmp_entries) →
  candidate_names w = name :: rest →
  tmp_entries !! ("tmp" +:+ name) = None →
  work_dir ≠ tempdir w ++ ["tmp" +:+ name] →
  ∃ w' tmp_mtime',
    _create_docker_build_ctx (host := Posix.host) work_dir dockerfile_contents w
      = (Raise (if FS.through_file work_dir (fs w)
                then NotADirectoryError else FileNotFoundError), w')
    ∧ FS.lookup (tempdir w) (fs w') = Some (Dir tmp_mtime' tmp_entries).
Proof.
  intros Hmissing Htmp Hnames Hfree Hother.
  set (directory := tempdir w ++ ["tmp" +:+ name]) in *.
  assert (FS.lookup directory (fs w) = None) as Hdir0.
  { unfold directory. rewrite lookup_app, Htmp. simpl. by rewrite lookup_entry. }
  destruct (put_entry_is_Some false (clock w) (tempdir w) ("tmp" +:+ name)
              (Dir (clock w) ∅) (fs w) _ _ Htmp) as [root1 Hput1].
  pose proof (mktemp_loop_first (λ now, Dir now ∅) _ _ _ _ Hnames Hdir0 Hput1) as Hmk.
  set (w1 := set_fs root1 (set_candidate_names rest w)) in *.
  pose proof (put_lookup _ _ _ _ _ _ Hput1) as Hdir1. fold directory in Hdir1.
  destruct (put_under_dir _ _ _ _ _ _ _ _ _ _ Htmp Hput1) as (t1 & c1 & Htmp1 & _).
  (* the working directory is still missing *)
  assert (FS.lookup work_dir root1 = None) as Hmissing1.
  { destruct (decide (directory `prefix_of` work_dir)) as [[r ->]|Hnotunder].
    - rewrite lookup_app, Hdir1. simpl. apply lookup_empty_dir.
      intros ->. by rewrite app_nil_r in Hother.
    - destruct (decide (work_dir `prefix_of` directory)) as [Hpre|Hnotover].
      + apply prefix_snoc_inv in Hpre as [Hpre|?]; [|done].
        by rewrite (lookup_prefix_None _ _ _ Hpre Hmissing) in Htmp.
      + rewrite <-Hmissing.
        by apply (put_lookup_diverge _ _ _ _ _ _ _ (conj Hnotover Hnotunder) Hput1). }
  (* and its path runs through the regular files it ran through *)
  assert (FS.through_file work_dir root1 = FS.through_file work_dir (fs w))
    as Hthrough.
  { apply eq_true_iff_eq. rewrite !through_file_iff.
    split; intros (q & r & t & d & Hp & Hr & Hq); exists q, r, t, d;
      (split_and!; [done..|]);
      by apply (put_entry_same_files _ _ _ _ _ _ _ _ q t d Htmp Hfree Hput1). }
  (* the removal of the staging directory *)
  destruct (remove_is_Some (clock w1) directory root1) as [root2 Hremove];
    [unfold directory; by destruct (tempdir w)|by rewrite Hdir1|].
  assert (["tmp" +:+ name] ≠ []) as Hne by done.
  destruct (remove_lookup_under _ _ _ _ _ _ Htmp1 Hne Hremove)
    as (sub & Hsub & Htmp2).
  rewrite remove_single, lookup_insert_eq in Hsub. simplify_eq.
  exists (set_fs root2 w1), (clock w1). split.
  - unfold _create_docker_build_ctx, bind, try_finally, mkdtemp.
    rewrite Hmk. simpl. fold directory. unfold Posix.copytree. simpl.
    rewrite Hmissing1. unfold Posix.rmtree, missing_error. simpl.
    rewrite Hdir1, Hthrough.
    change (S (clock w)) with (clock w1). by rewrite Hremove.
  - simpl. rewrite Htmp2. do 2 f_equal.
    apply map_eq. intros k.
    destruct (decide (k = "tmp" +:+ name)) as [->|Hk]; by simplify_map_eq.
Qed.

End docker.

(** ** The properties on concrete inputs *)

#[local] Abbreviation translate credentials :=
  (get_docker_tracking_cmd_and_envs Sample.tracking_uri_env_var credentials
     Sample.path_to_local_sqlite_uri Sample.path_to_local_file_uri).

#[local] Abbreviation build_ctx host :=
  (_create_docker_build_ctx (host := host) Sample.work_dir "FROM python:3").

#[local] Abbreviation build host :=
  (build_docker_image Sample.git_commit Sample.workdir_path Sample.image_uri_tag
     Sample.image_id_tag (host := host) Sample.work_dir "" "python:3" "run1").

(** The SQLite URI of the specification. *)
Lemma local_uri_mount_and_rewrite_witness :
  ∃ env,
    translate Sample.no_credentials "sqlite:///tmp/mlruns.db" =
      Ok (["-v"; "/tmp/mlruns.db:/mlflow/tmp/mlruns"], env)
    ∧ env = dict_update {[ "MLFLOW_TRACKING_URI" := "sqlite:////mlflow/tmp/mlruns" ]} ∅
    ∧ ((∅ : gmap string string) !! "MLFLOW_TRACKING_URI" = None →
       env !! "MLFLOW_TRACKING_URI" = Some "sqlite:////mlflow/tmp/mlruns").
Proof.
  apply (local_uri_mount_and_rewrite Sample.tracking_uri_env_var
           Sample.no_credentials Sample.path_to_local_sqlite_uri
           Sample.path_to_local_file_uri "sqlite:///tmp/mlruns.db"
           (urllib.mkParseResult "sqlite" "" "/tmp/mlruns.db" "" "" "")).
  - discriminate.
  - vm_compute. reflexivity.
  - reflexivity.
  - simpl. apply (bool_decide_unpack _). vm_compute. reflexivity.
Defined.

(** The remote URI of the specification. *)
Lemma remote_uri_no_mount_witness :
  translate Sample.profile_credentials "https://tracking.example.com" =
    Ok ([], Sample.profile_credentials "https://tracking.example.com").
Proof.
  apply (remote_uri_no_mount Sample.tracking_uri_env_var).
  right. exists (urllib.mkParseResult "https" "tracking.example.com" "" "" "" "").
  split; [vm_compute; reflexivity|].
  left. simpl. discriminate.
Defined.

(** A provider that binds the tracking-URI variable, on a local URI. *)
Lemma credentials_override_rewritten_uri_witness :
  ∃ env,
    translate Sample.profile_credentials "file:///home/user/mlruns" =
      Ok (["-v"; "/home/user/mlruns:/mlflow/tmp/mlruns"], env)
    ∧ env !! "MLFLOW_TRACKING_URI" = Some "databricks".
Proof.
  apply (credentials_override_rewritten_uri Sample.tracking_uri_env_var
           Sample.profile_credentials Sample.path_to_local_sqlite_uri
           Sample.path_to_local_file_uri "file:///home/user/mlruns"
           "/home/user/mlruns" "file:///mlflow/tmp/mlruns" "databricks").
  - vm_compute. reflexivity.
  - vm_compute. reflexivity.
Defined.

(** The empty URI. *)
Lemma bare_path_is_local_witness :
  ∃ p host_path,
    urllib.urlparse "" = Ok p
    ∧ host_path = urllib.url2pathname (urllib.path p)
    ∧ translate Sample.no_credentials "" =
        Ok (["-v"; host_path +:+ ":" +:+ "/mlflow/tmp/mlruns"],
            dict_update {[ "MLFLOW_TRACKING_URI" := "file:///mlflow/tmp/mlruns" ]} ∅)
    ∧ ("" = "" → host_path = ""
                 ∧ host_path +:+ ":" +:+ "/mlflow/tmp/mlruns" = ":/mlflow/tmp/mlruns").
Proof.
  apply (bare_path_is_local Sample.tracking_uri_env_var Sample.no_credentials
           Sample.path_to_local_sqlite_uri Sample.path_to_local_file_uri "").
  - vm_compute. reflexivity.
  - discriminate.
Defined.

(** [databricks] parses as a bare path and is not mounted. *)
Lemma bare_path_databricks_not_local :
  is_bare_path "databricks" = true
  ∧ translate Sample.no_credentials "databricks" = Ok ([], ∅)
  ∧ ¬ ∃ host_path env,
        translate Sample.no_credentials "databricks" =
          Ok (["-v"; host_path +:+ ":" +:+ "/mlflow/tmp/mlruns"], env).
Proof.
  split_and!; [by vm_compute|by vm_compute|].
  intros (host_path & env & Hrun). vm_compute in Hrun. discriminate.
Qed.

(** C2. The staging directory stays when its removal fails. In the
    project [/home/user/project] the directory [data] is read-only and
    holds a file; [copytree] copies it with its mode. The staging
    directory [/tmp/tmpa1] is not there before the call; the copy, the
    write of the manifest and the archiving succeed; [shutil.rmtree] in
    the [finally] clause raises [PermissionError], which the call passes
    on; after it [/tmp/tmpa1] is a directory that still holds the copy,
    and the archive [/tmp/tmpb2], whose path is not returned, stays as
    well. *)
Theorem staging_directory_left_when_removal_fails :
  let w := Sample.world_with_data in
  let call := _create_docker_build_ctx (host := Posix.host_read_only "data")
                Sample.work_dir "FROM python:3" w in
  (mkdtemp w).1 = Ok ["tmp"; "tmpa1"]
  ∧ FS.isdir ["tmp"; "tmpa1"] (fs w) = false
  ∧ call.1 = Raise PermissionError
  ∧ FS.isdir ["tmp"; "tmpa1"] (fs call.2) = true
  ∧ FS.lookup ["tmp"; "tmpa1"; "mlflow-project-contents"; "data"] (fs call.2)
    = Some (Dir 2 {[ "train.csv" := File 2 (Bytes "x,y") ]})
  ∧ FS.exists_ ["tmp"; "tmpb2"] (fs call.2) = true.
Proof. vm_compute. done. Qed.

(** A run on the sample project: the staging directory [/tmp/tmpa1]. *)
Lemma staging_directory_removed_by_working_rmtree_witness :
  FS.isdir ["tmp"; "tmpa1"] (fs Sample.world0) = false
  ∧ FS.isdir ["tmp"; "tmpa1"] (fs (build_ctx Posix.host Sample.world0).2) = false.
Proof.
  apply (@staging_directory_removed_by_working_rmtree Posix.host Sample.work_dir
           "FROM python:3" Sample.world0 ["tmp"; "tmpa1"]
           (mkdtemp Sample.world0).2).
  - reflexivity.
  - vm_compute. reflexivity.
Defined.

(** Without a read-only directory in the project the same host removes
    the staging directory. *)
Example read_only_host_removes_writable_tree :
  let call := _create_docker_build_ctx (host := Posix.host_read_only "data")
                Sample.work_dir "FROM python:3" Sample.world0 in
  call.1 = Ok ["tmp"; "tmpb2"]
  ∧ FS.isdir ["tmp"; "tmpa1"] (fs call.2) = false.
Proof. vm_compute. done. Qed.

(** The archive of the sample project. *)
Lemma archive_root_and_manifest_witness :
  ∃ t es archive_mtime tree manifest_mtime,
    FS.lookup Sample.work_dir (fs Sample.world0) = Some (Dir t es)
    ∧ FS.lookup ["tmp"; "tmpb2"] (fs (build_ctx Posix.host Sample.world0).2) =
        Some (File archive_mtime (TarGz "mlflow-project-docker-build-context" tree))
    ∧ FS.lookup ["Dockerfile.mlflow-autogenerated"] tree =
        Some (File manifest_mtime (Bytes "FROM python:3"))
    ∧ (∀ name, name ≠ "Dockerfile.mlflow-autogenerated" →
               FS.lookup [name] tree = es !! name)
    ∧ staging_subdirectory = "mlflow-project-contents"
    ∧ staging_subdirectory ≠ "mlflow-project-docker-build-context".
Proof.
  apply (archive_root_and_manifest Sample.work_dir "FROM python:3" Sample.world0).
  vm_compute. reflexivity.
Defined.

(** The root entry of the sample archive does not carry the name of the
    staging subdirectory. *)
Lemma archive_root_is_not_staging_name :
  ∃ mtime root tree,
    (build_ctx Posix.host Sample.world0).1 = Ok ["tmp"; "tmpb2"]
    ∧ FS.lookup ["tmp"; "tmpb2"] (fs (build_ctx Posix.host Sample.world0).2) =
        Some (File mtime (TarGz root tree))
    ∧ root ≠ staging_subdirectory.
Proof.
  eexists _, _, _. split_and!; [by vm_compute|by vm_compute|discriminate].
Qed.

(** The sample project archived twice in a row. *)
Lemma build_context_reproducible_witness :
  let w1 := (build_ctx Posix.host Sample.world0).2 in
  ∃ t es mtime1 mtime2 archive1 archive2 root_mtime1 root_mtime2
    manifest_mtime1 manifest_mtime2 unpacked1 unpacked2,
    FS.lookup Sample.work_dir (fs Sample.world0) = Some (Dir t es)
    ∧ FS.lookup ["tmp"; "tmpb2"] (fs w1) = Some (File mtime1 archive1)
    ∧ FS.lookup ["tmp"; "tmpd4"] (fs (build_ctx Posix.host w1).2) =
        Some (File mtime2 archive2)
    ∧ archive1 =
        TarGz _PROJECT_TAR_ARCHIVE_NAME
          (Dir root_mtime1
             (<[_GENERATED_DOCKERFILE_NAME :=
                  File manifest_mtime1 (Bytes "FROM python:3")]> es))
    ∧ archive2 =
        TarGz _PROJECT_TAR_ARCHIVE_NAME
          (Dir root_mtime2
             (<[_GENERATED_DOCKERFILE_NAME :=
                  File manifest_mtime2 (Bytes "FROM python:3")]> es))
    ∧ extract archive1 = Some unpacked1
    ∧ extract archive2 = Some unpacked2
    ∧ FS.strip_mtime unpacked1 = FS.strip_mtime unpacked2
    ∧ FS.strip_mtime_content archive1 = FS.strip_mtime_content archive2.
Proof.
  intros w1.
  apply (build_context_reproducible Sample.work_dir "FROM python:3"
           Sample.world0 w1).
  - vm_compute. reflexivity.
  - vm_compute. reflexivity.
  - vm_compute. reflexivity.
Defined.

(** A build on a host whose archive cannot be deleted. *)
Lemma archive_deletion_failure_not_fatal_witness :
  let image := mkImage "sha256:docker-project:3f2a9c4" ["docker-project:3f2a9c4"] in
  let w1 := (_create_docker_build_ctx (host := Posix.host_keeping_archive)
               Sample.work_dir (dockerfile_text Sample.workdir_path "python:3")
               Sample.world0).2 in
  let w2 := (build_from_context (host := Posix.host_keeping_archive)
               "docker-project:3f2a9c4" ["tmp"; "tmpb2"] w1).2 in
  ∃ w',
    build Posix.host_keeping_archive Sample.world0 = (Ok image, w')
    ∧ tags w' = tags w2 ++ [("run1", "mlflow.docker.image.uri", "docker-project:3f2a9c4");
                            ("run1", "mlflow.docker.image.id", "sha256:docker-project:3f2a9c4")]
    ∧ fs w' = fs w2
    ∧ log w' = log w2 ++ ["Temporary docker context file /tmp/tmpb2 was not deleted."].
Proof.
  intros image w1 w2.
  apply (@archive_deletion_failure_not_fatal Sample.git_commit Sample.workdir_path
           Sample.image_uri_tag Sample.image_id_tag Posix.host_keeping_archive
           Sample.work_dir "" "python:3" "run1" Sample.world0
           ["tmp"; "tmpb2"] w1 image w2 (OSError "Operation not permitted") w2).
  - vm_compute. reflexivity.
  - vm_compute. reflexivity.
  - vm_compute. reflexivity.
Defined.

(** ** Runs on the failure paths and on the URIs of the specification *)

Example staging_removed_when_copy_fails :
  let r := _create_docker_build_ctx (host := Posix.host)
             ["home"; "nobody"] "FROM python:3" Sample.world0 in
  r.1 = Raise FileNotFoundError
  ∧ FS.exists_ ["tmp"; "tmpa1"] (fs r.2) = false
  ∧ FS.lookup ["tmp"] (fs r.2) = Some (Dir 11 ∅).
Proof. by vm_compute. Qed.

Example working_directory_through_a_file :
  let r := _create_docker_build_ctx (host := Posix.host)
             ["home"; "user"; "project"; "MLproject"; "sub"] "FROM python:3"
             Sample.world0 in
  r.1 = Raise NotADirectoryError
  ∧ FS.exists_ ["tmp"; "tmpa1"] (fs r.2) = false
  ∧ FS.lookup ["tmp"] (fs r.2) = Some (Dir 11 ∅).
Proof. by vm_compute. Qed.

Example staging_removed_when_manifest_write_fails :
  let r := _create_docker_build_ctx (host := Posix.host)
             ["project"] "FROM python:3" Sample.world_manifest_dir in
  r.1 = Raise IsADirectoryError
  ∧ FS.exists_ ["tmp"; "tmpa1"] (fs r.2) = false
  ∧ FS.lookup ["tmp"] (fs r.2) = Some (Dir 12 ∅).
Proof. by vm_compute. Qed.

Example staging_removed_when_archive_fails :
  let r := _create_docker_build_ctx (host := Posix.host)
             Sample.work_dir "FROM python:3" Sample.world_one_name in
  r.1 = Raise FileExistsError
  ∧ FS.exists_ ["tmp"; "tmpa1"] (fs r.2) = false
  ∧ FS.lookup ["tmp"] (fs r.2) = Some (Dir 13 ∅).
Proof. by vm_compute. Qed.

Example copy_into_itself_fails :
  let r := _create_docker_build_ctx (host := Posix.host) ["tmp"] "FROM python:3"
             Sample.world0 in
  r.1 = Raise (OSError "cannot copy a directory into itself")
  ∧ FS.exists_ ["tmp"; "tmpa1"] (fs r.2) = false.
Proof. by vm_compute. Qed.

Example translate_file_uri :
  translate Sample.no_credentials "file:///home/user/mlruns" =
    Ok (["-v"; "/home/user/mlruns:/mlflow/tmp/mlruns"],
        {[ "MLFLOW_TRACKING_URI" := "file:///mlflow/tmp/mlruns" ]}).
Proof. by vm_compute. Qed.

Example translate_https_uri :
  translate Sample.no_credentials "https://tracking.example.com" = Ok ([], ∅).
Proof. by vm_compute. Qed.

Example translate_databricks :
  translate Sample.profile_credentials "databricks" =
    Ok ([], Sample.profile_credentials "databricks").
Proof. by vm_compute. Qed.

Example translate_escaped_path :
  translate Sample.no_credentials "my%20runs/mlruns;v=1?x#y" =
    Ok (["-v"; "my runs/mlruns:/mlflow/tmp/mlruns"],
        {[ "MLFLOW_TRACKING_URI" := "file:///mlflow/tmp/mlruns" ]}).
Proof. by vm_compute. Qed.

Example translate_network_path :
  is_bare_path "//host/mlruns" = false
  ∧ translate Sample.no_credentials "//host/mlruns" = Ok ([], ∅).
Proof. by vm_compute. Qed.

Example translate_invalid_netloc :
  translate Sample.no_credentials "file://[::1/mlruns" =
    Raise (ValueError "Invalid IPv6 URL").
Proof. by vm_compute. Qed.

Example image_uri_with_commit :
  _get_docker_image_uri Sample.git_commit "registry.example.com/demo" Sample.work_dir
    = "registry.example.com/demo:3f2a9c4".
Proof. reflexivity. Qed.

Example image_uri_short_commit :
  _get_docker_image_uri (λ _, Some "abc") "" Sample.work_dir = "docker-project:abc".
Proof. reflexivity. Qed.

Example image_uri_without_commit :
  _get_docker_image_uri Sample.no_git_commit "" Sample.work_dir = "docker-project".
Proof. reflexivity. Qed.

(** ** The further properties on concrete inputs *)

Lemma image_uri_same_for_same_short_commit_witness :
  _get_docker_image_uri Sample.near_commits "demo" ["home"; "user"; "project"]
  = _get_docker_image_uri Sample.near_commits "demo" ["home"; "user"; "fork"].
Proof.
  apply (image_uri_same_for_same_short_commit Sample.near_commits "demo"
           ["home"; "user"; "project"] ["home"; "user"; "fork"] "3f2a9c4"
           "1d07be5486a1c9d2e7b60f1a3c5d8e9b2" "ffb2a90c1e55d7a3b8c6f4e2d1a0b9c8d").
  - reflexivity.
  - vm_compute. reflexivity.
  - vm_compute. reflexivity.
Defined.

Lemma translator_adds_only_tracking_uri_witness :
  "MLFLOW_TRACKING_URI" = Sample.tracking_uri_env_var
  ∧ ["-v"; "/home/user/mlruns:/mlflow/tmp/mlruns"] ≠ [].
Proof.
  apply (translator_adds_only_tracking_uri Sample.tracking_uri_env_var
           Sample.no_credentials Sample.path_to_local_sqlite_uri
           Sample.path_to_local_file_uri "file:///home/user/mlruns"
           ["-v"; "/home/user/mlruns:/mlflow/tmp/mlruns"]
           {[ "MLFLOW_TRACKING_URI" := "file:///mlflow/tmp/mlruns" ]}
           "MLFLOW_TRACKING_URI" "file:///mlflow/tmp/mlruns").
  - vm_compute. reflexivity.
  - vm_compute. reflexivity.
  - vm_compute. reflexivity.
Defined.

Lemma plain_path_mounted_verbatim_witness :
  translate Sample.no_credentials "/home/user/mlruns" =
    Ok (["-v"; "/home/user/mlruns" +:+ ":/mlflow/tmp/mlruns"],
        dict_update {[ "MLFLOW_TRACKING_URI" := "file:///mlflow/tmp/mlruns" ]} ∅).
Proof.
  apply (plain_path_mounted_verbatim Sample.tracking_uri_env_var
           Sample.no_credentials Sample.path_to_local_sqlite_uri
           Sample.path_to_local_file_uri "/home/user/mlruns").
  - discriminate.
  - discriminate.
  - intros c Hc. repeat (apply elem_of_cons in Hc as [->|Hc]; [reflexivity|]).
    by apply elem_of_nil in Hc.
  - intros c rest [= <- _]. apply Nat.ltb_lt. reflexivity.
Defined.

Lemma working_directory_untouched_witness :
  FS.lookup Sample.work_dir (fs (build_ctx Posix.host Sample.world0).2)
  = FS.lookup Sample.work_dir (fs Sample.world0).
Proof.
  apply (working_directory_untouched Sample.work_dir "FROM python:3"
           Sample.world0 ["tmp"; "tmpb2"]).
  vm_compute. reflexivity.
Defined.

Lemma temporary_directory_gains_only_archive_witness :
  ∃ tmp_mtime tmp_entries name tmp_mtime' archive_mtime tree,
    FS.lookup ["tmp"] (fs Sample.world0) = Some (Dir tmp_mtime tmp_entries)
    ∧ ["tmp"; "tmpb2"] = ["tmp"] ++ [name]
    ∧ tmp_entries !! name = None
    ∧ FS.lookup ["tmp"] (fs (build_ctx Posix.host Sample.world0).2) =
        Some (Dir tmp_mtime'
                (<[name := File archive_mtime
                             (TarGz "mlflow-project-docker-build-context" tree)]>
                   tmp_entries)).
Proof.
  apply (temporary_directory_gains_only_archive Sample.work_dir "FROM python:3"
           Sample.world0 ["tmp"; "tmpb2"]).
  vm_compute. reflexivity.
Defined.


Lemma outside_temporary_directory_untouched_witness :
  FS.lookup ["home"; "user"] (fs (build_ctx Posix.host Sample.world0).2)
  = FS.lookup ["home"; "user"] (fs Sample.world0).
Proof.
  apply (outside_temporary_directory_untouched Sample.work_dir "FROM python:3"
           Sample.world0 ["home"; "user"]).
  split; apply (bool_decide_unpack _); vm_compute; exact I.
Defined.

Lemma returned_image_is_tagged_witness :
  ∃ earlier,
    tags (build Posix.host Sample.world0).2 =
      earlier ++ [("run1", "mlflow.docker.image.uri",
                   _get_docker_image_uri Sample.git_commit "" Sample.work_dir);
                  ("run1", "mlflow.docker.image.id", "sha256:docker-project:3f2a9c4")].
Proof.
  apply (@returned_image_is_tagged Sample.git_commit Sample.workdir_path
           Sample.image_uri_tag Sample.image_id_tag Posix.host Sample.work_dir
           "" "python:3" "run1" Sample.world0
           (mkImage "sha256:docker-project:3f2a9c4" ["docker-project:3f2a9c4"])).
  vm_compute. reflexivity.
Defined.

Lemma archive_left_when_engine_raises_witness :
  let refuse : string → string → content → M image :=
    λ _ _ _, raise (BuildError "no space left on device") in
  ∃ w' mtime tree,
    build_docker_image Sample.git_commit Sample.workdir_path Sample.image_uri_tag
      Sample.image_id_tag (host := Posix.host_with_engine refuse)
      Sample.work_dir "" "python:3" "run1" Sample.world0
    = (Raise (BuildError "no space left on device"), w')
    ∧ FS.lookup ["tmp"; "tmpb2"] (fs w') =
        Some (File mtime (TarGz "mlflow-project-docker-build-context" tree))
    ∧ tags w' = tags Sample.world0.
Proof.
  intros refuse.
  apply (archive_left_when_engine_raises Sample.git_commit Sample.workdir_path
           Sample.image_uri_tag Sample.image_id_tag refuse
           (BuildError "no space left on device") Sample.work_dir "" "python:3"
           "run1" Sample.world0 ["tmp"; "tmpb2"]
           (_create_docker_build_ctx (host := Posix.host_with_engine refuse)
              Sample.work_dir (dockerfile_text Sample.workdir_path "python:3")
              Sample.world0).2).
  - reflexivity.
  - vm_compute. reflexivity.
Defined.

Lemma build_leaves_temporary_directory_clean_witness :
  let w' := (build (Posix.host_with_engine Posix.images_build) Sample.world0).2 in
  ∃ tmp_mtime tmp_entries tmp_mtime',
    FS.lookup ["tmp"] (fs Sample.world0) = Some (Dir tmp_mtime tmp_entries)
    ∧ FS.lookup ["tmp"] (fs w') = Some (Dir tmp_mtime' tmp_entries)
    ∧ tags w' = [] ++ [("run1", "mlflow.docker.image.uri",
                        _get_docker_image_uri Sample.git_commit "" Sample.work_dir);
                       ("run1", "mlflow.docker.image.id", "sha256:docker-project:3f2a9c4")]
    ∧ log w' = [] ++ ["=== Building docker image "
                      +:+ _get_docker_image_uri Sample.git_commit "" Sample.work_dir
                      +:+ " ==="].
Proof.
  intros w'.
  apply (build_leaves_temporary_directory_clean Sample.git_commit
           Sample.workdir_path Sample.image_uri_tag Sample.image_id_tag
           Posix.images_build Sample.work_dir "" "python:3" "run1" Sample.world0
           (mkImage "sha256:docker-project:3f2a9c4" ["docker-project:3f2a9c4"]) w').
  - intros tag dockerfile fileobj w0 r w0' Hengine.
    destruct fileobj; vm_compute in Hengine; congruence.
  - vm_compute. reflexivity.
Defined.

Lemma build_ctx_succeeds_witness :
  ∃ w', build_ctx Posix.host Sample.world0
        = (Ok (tempdir Sample.world0 ++ ["tmp" +:+ "b2"]), w').
Proof.
  eapply (build_ctx_succeeds Sample.work_dir "FROM python:3" Sample.world0
            3 _ 0 ∅ "a1" "b2" ["c3"; "d4"]).
  - reflexivity.
  - reflexivity.
  - apply (bool_decide_unpack _). vm_compute. exact I.
  - reflexivity.
  - discriminate.
  - reflexivity.
  - reflexivity.
  - intros t' es'. vm_compute. discriminate.
Defined.

Lemma missing_working_directory_raises_witness :
  ∃ w' tmp_mtime',
    _create_docker_build_ctx (host := Posix.host) ["home"; "nobody"]
      "FROM python:3" Sample.world0 = (Raise FileNotFoundError, w')
    ∧ FS.lookup (tempdir Sample.world0) (fs w') = Some (Dir tmp_mtime' ∅).
Proof.
  apply (missing_working_directory_raises ["home"; "nobody"] "FROM python:3"
           Sample.world0 0 ∅ "a1" ["b2"; "c3"; "d4"]).
  - vm_compute. reflexivity.
  - vm_compute. reflexivity.
  - reflexivity.
  - reflexivity.
  - discriminate.
Defined.
